(** * Verification of the quota-activation poll and the billing
      expand/flatten helpers of terraform-provider-ccloud

    The development embeds three pieces of the provider:
    - [Billing]: [billingProjectExpandCostObject] and the
      [ExtCertification] expand/flatten pair of
      [sci/sci_billing_project_masterdata.go];
    - [Quota]: [limesCCloudProjectQuotaV1GetQuota] and
      [limesCCloudProjectQuotaV1WaitForProject] of the quota resource;
    - [StateChange]: the SDK polling primitive
      [resource.StateChangeConf.WaitForStateContext] that the quota wait
      hands its refresh function to. *)

From Stdlib Require Import ZArith Lia Ascii.
From stdpp Require Import base option list gmap strings fin_maps.

Open Scope string_scope.
Open Scope Z_scope.

(** ** Go values of dynamic type [any] *)

(** The dynamic types that reach the helpers: a type assertion [x.(T)]
    succeeds only on the constructor of exactly [T], so [[]any] and
    [[]map[string]any] are different tags. A nil slice and an empty one
    behave alike under [range], both are the empty list. *)
#[local] Unset Elimination Schemes.
Inductive any : Type :=
  | Nil
  | Bool (b : bool)
  | String (s : string)
  | Int (z : Z)
  | SliceAny (l : list any)
  | MapAny (m : gmap string any)
  | SliceMapAny (l : list (gmap string any)).
#[local] Set Elimination Schemes.

(** A function that can end in a run-time panic (a failed single-value
    type assertion [v.(T)]). *)
Inductive outcome (A : Type) : Type :=
  | Returns (a : A)
  | Panics.
Arguments Returns {A} a.
Arguments Panics {A}.

#[global] Instance outcome_ret : MRet outcome := @Returns.
#[global] Instance outcome_bind : MBind outcome := fun A B k o =>
  match o with
  | Returns a => k a
  | Panics => Panics
  end.

(** ** Billing masterdata helpers *)
Module Billing.

(** [projects.CostObject] *)
Record CostObject : Type := mkCostObject {
  Inherited : bool;
  Name : string;
  Type' : string
}.

(** [projects.ExtCertification] *)
Record ExtCertification : Type := mkExtCertification {
  C5 : bool;
  ISO : bool;
  PCI : bool;
  SOC1 : bool;
  SOC2 : bool;
  SOX : bool
}.

(** [v.(bool)] and [v.(string)] in their single-value form. *)
Definition assert_bool (v : any) : outcome bool :=
  match v with
  | Bool b => Returns b
  | _ => Panics
  end.

Definition assert_string (v : any) : outcome string :=
  match v with
  | String s => Returns s
  | _ => Panics
  end.

Definition billingProjectFlattenCostObject (co : CostObject) : list (gmap string any) :=
  [ {[ "inherited" := Bool (Inherited co);
       "name" := String (Name co);
       "type" := String (Type' co) ]} ].

(** The body run on the first element of dynamic type [map[string]any]:
    it always ends in [return co]. *)
Definition expandCostObjectMap (co : CostObject) (v : gmap string any) : outcome CostObject :=
  co ← match v !! "inherited" with
       | Some x => b ← assert_bool x; Returns (mkCostObject b (Name co) (Type' co))
       | None => Returns co
       end;
  if negb (Inherited co) then
    co ← match v !! "name" with
         | Some x => s ← assert_string x; Returns (mkCostObject (Inherited co) s (Type' co))
         | None => Returns co
         end;
    co ← match v !! "type" with
         | Some x => s ← assert_string x; Returns (mkCostObject (Inherited co) (Name co) s)
         | None => Returns co
         end;
    Returns co
  else Returns co.

(** [for _, v := range v]: elements that are not maps are skipped. *)
Fixpoint expandCostObjectRange (co : CostObject) (l : list any) : outcome CostObject :=
  match l with
  | [] => Returns co
  | MapAny v :: _ => expandCostObjectMap co v
  | _ :: rest => expandCostObjectRange co rest
  end.

Definition billingProjectExpandCostObject (raw : any) : outcome CostObject :=
  let co := mkCostObject false "" "" in
  match raw with
  | SliceAny v => expandCostObjectRange co v
  | _ => Returns co
  end.

(** [if v, ok := v[key].(bool); ok { field = v }]: the new value of
    [field]. A missing key reads as the nil interface, on which the
    assertion fails. *)
Definition bool_entry (v : gmap string any) (key : string) (field : bool) : bool :=
  match v !! key with
  | Some (Bool b) => b
  | _ => field
  end.

(** The result is a pointer: [None] is nil. Each of the six conditional
    assignments writes one field of the fresh, zero-valued struct. *)
Definition billingProjectExpandExtCertificationV1 (raw : any) : option ExtCertification :=
  match raw with
  | SliceAny v =>
      match v with
      | [] => None
      | MapAny v :: _ =>
          let zero := mkExtCertification false false false false false false in
          Some (mkExtCertification
                  (bool_entry v "c5" (C5 zero))
                  (bool_entry v "iso" (ISO zero))
                  (bool_entry v "pci" (PCI zero))
                  (bool_entry v "soc1" (SOC1 zero))
                  (bool_entry v "soc2" (SOC2 zero))
                  (bool_entry v "SOX" (SOX zero)))
      | _ :: _ => None
      end
  | _ => None
  end.

Definition billingProjectFlattenExtCertificationV1
    (extCertification : option ExtCertification) : list (gmap string any) :=
  match extCertification with
  | None => []
  | Some e =>
      [ {[ "c5" := Bool (C5 e);
           "iso" := Bool (ISO e);
           "pci" := Bool (PCI e);
           "soc1" := Bool (SOC1 e);
           "soc2" := Bool (SOC2 e);
           "sox" := Bool (SOX e) ]} ]
  end.

(** Passing a [[]map[string]any] where [any] is expected keeps its
    dynamic type. *)
Definition as_any (l : list (gmap string any)) : any := SliceMapAny l.

(** The shape in which the schema layer hands a list block back to the
    expand helpers: a [[]any] whose elements are [map[string]any]. *)
Definition as_schema_list (l : list (gmap string any)) : any := SliceAny (MapAny <$> l).

Definition is_map (v : any) : bool :=
  match v with
  | MapAny _ => true
  | _ => false
  end.

End Billing.

(** ** Time, the remote service and effects *)

(** [time.Duration]: nanoseconds. *)
Definition Millisecond : Z := 1000000.
Definition Second : Z := 1000 * Millisecond.

(** The part of the outside world the quota wait touches: a clock (in
    nanoseconds) and the log of the instants at which a [GET] of the
    project report was sent, newest first. *)
Record World : Type := mkWorld {
  clock : Z;
  requests : list Z
}.

(** Effectful code is a function of the world in explicit state-passing
    style. *)
Definition IO (A : Type) : Type := World -> A * World.

(** Errors that [projects.Get(...).Extract()] hands back. The refresh
    function only tells [gophercloud.ErrDefault404] (asserted by value)
    from everything else; [text] is what [Error()] renders. *)
Inductive get_error : Type :=
  | ErrDefault404 (text : string)
  | ErrOther (text : string).

Definition get_error_text (e : get_error) : string :=
  match e with
  | ErrDefault404 text => text
  | ErrOther text => text
  end.

(** The [error] values built by the quota wait and by the SDK. *)
#[local] Unset Elimination Schemes.
Inductive error : Type :=
  | errorString (text : string)
  | contextErr
  | NotFoundError (LastError : option error) (Retries : Z)
  | UnexpectedStateError (LastError : option error) (State : string)
      (ExpectedState : list string)
  | TimeoutError (LastError : option error) (LastState : string)
      (Timeout : Z) (ExpectedState : list string).
#[local] Set Elimination Schemes.

(** [context.Context], reduced to the instant at which [Done()] closes
    ([None]: never). *)
Record Context : Type := mkContext {
  done_at : option Z
}.

(** ** The SDK polling primitive *)

(** [resource.StateChangeConf.WaitForStateContext] of
    terraform-plugin-sdk/v2 ([helper/resource/state.go]), the function the
    quota wait calls when a timeout is set. Its fields, in the words of
    the SDK: [Delay] "wait this time before starting checks", [Pending]
    "states that are pending", [Target] "target state", [Timeout] "the
    amount of time to wait before timeout", [MinTimeout] "smallest time to
    wait before refreshes", [PollInterval] "override MinTimeout/backoff and
    only poll this often", [NotFoundChecks] "number of times to allow not
    found (nil result from Refresh)", [ContinuousTargetOccurence] "number
    of times the Target state has to occur continuously". *)
Module StateChange.
Section WithResult.
Context {A : Type}.

(** [resource.StateRefreshFunc]: result ([None] is nil), state, error. *)
Definition StateRefreshFunc : Type := IO (option A * string * option error).

(** [resource.StateChangeConf] *)
Record StateChangeConf : Type := mkStateChangeConf {
  Delay : Z;
  Pending : list string;
  Refresh : StateRefreshFunc;
  Target : list string;
  Timeout : Z;
  MinTimeout : Z;
  PollInterval : Z;
  NotFoundChecks : Z;
  ContinuousTargetOccurence : Z
}.

(** The [Result] struct local to [WaitForStateContext]. *)
Record Result : Type := mkResult {
  R_Result : option A;
  R_State : string;
  R_Error : option error;
  R_Done : bool
}.

(** What ends a [select] over a timer, the cancellation of the context
    and the overall timeout. *)
Inductive wake : Type :=
  | Woke
  | TimedOut
  | Cancelled.

Definition cancelled_by (ctx : Context) (t : Z) : bool :=
  match done_at ctx with
  | Some c => c <=? t
  | None => false
  end.

(** Sleep [d] from now unless the context is cancelled or [deadline]
    passes first; when two of them fall on the same instant the
    cancellation wins over the timeout and the timeout over the timer.
    A timer with a non-positive duration fires at once. *)
Definition select_after (ctx : Context) (deadline d : Z) : IO wake := fun w =>
  let t := clock w + Z.max 0 d in
  if cancelled_by ctx (Z.min t deadline) then
    (Cancelled, mkWorld (Z.max (clock w) (default 0 (done_at ctx))) (requests w))
  else if deadline <=? t then
    (TimedOut, mkWorld (Z.max (clock w) deadline) (requests w))
  else
    (Woke, mkWorld t (requests w)).

(** [for _, allowed := range conf.Target]: the triple is (reached the
    wanted number of occurrences, found, targetOccurence). *)
Fixpoint scanTarget (cto : Z) (currentState : string) (targets : list string)
    (found : bool) (targetOccurence : Z) : bool * bool * Z :=
  match targets with
  | [] => (false, found, targetOccurence)
  | allowed :: rest =>
      if String.eqb currentState allowed then
        let targetOccurence := targetOccurence + 1 in
        if cto =? targetOccurence then (true, true, targetOccurence)
        else scanTarget cto currentState rest true targetOccurence
      else scanTarget cto currentState rest found targetOccurence
  end.

(** [for _, allowed := range conf.Pending]: (found, targetOccurence). *)
Fixpoint scanPending (currentState : string) (pending : list string)
    (found : bool) (targetOccurence : Z) : bool * Z :=
  match pending with
  | [] => (found, targetOccurence)
  | allowed :: rest =>
      if String.eqb currentState allowed then (true, 0)
      else scanPending currentState rest found targetOccurence
  end.

(** The interval before the next refresh: exponential backoff unless the
    target state is being re-observed, then [PollInterval] when set, else
    the bounds [MinTimeout] and 10 s. *)
Definition nextWait (conf : StateChangeConf) (wait targetOccurence : Z) : Z :=
  let wait := if targetOccurence =? 0 then wait * 2 else wait in
  if (0 <? PollInterval conf) && (PollInterval conf <? 180 * Second) then PollInterval conf
  else if wait <? MinTimeout conf then MinTimeout conf
  else if 10 * Second <? wait then 10 * Second
  else wait.

(** The refresh loop of [WaitForStateContext]. The SDK runs it in a
    goroutine that reports every result over a channel to the caller,
    which watches the timeout and the context; here both are
    sequentialised on the clock of the world: a refresh takes no time,
    and the timeout and the cancellation are noticed where the loop
    sleeps. [wait] never exceeds the larger of 10 s and [MinTimeout], so
    doubling it does not overflow an [int64] for any [MinTimeout] below
    2^62 ns. [fuel] bounds the number of rounds; [None] is "out of fuel".
    The value is what [WaitForStateContext] returns: the result and
    error of the round that ended the loop, or the timeout error built
    from the last result the caller has seen. *)
Fixpoint refreshLoop (fuel : nat) (ctx : Context) (conf : StateChangeConf)
    (deadline wait notfoundTick targetOccurence : Z) (result : Result)
    (w : World) : option ((option A * option error) * World) :=
  match fuel with
  | O => None
  | S fuel =>
      let '(ev, w) := select_after ctx deadline wait w in
      match ev with
      | Cancelled => Some ((None, Some contextErr), w)
      | TimedOut =>
          Some ((None, Some (TimeoutError (R_Error result) (R_State result)
                               (Timeout conf) (Target conf))), w)
      | Woke =>
          let wait := if wait =? 0 then 100 * Millisecond else wait in
          let '((res, currentState, err), w) := Refresh conf w in
          let result := mkResult res currentState err false in
          match err with
          | Some e => Some ((res, Some e), w)
          | None =>
              match res with
              | None =>
                  if (length (Target conf) =? 0)%nat then
                    let targetOccurence := targetOccurence + 1 in
                    if ContinuousTargetOccurence conf =? targetOccurence
                    then Some ((res, None), w)
                    else refreshLoop fuel ctx conf deadline wait notfoundTick
                           targetOccurence result w
                  else
                    let notfoundTick := notfoundTick + 1 in
                    if NotFoundChecks conf <? notfoundTick
                    then Some ((res, Some (NotFoundError err notfoundTick)), w)
                    else refreshLoop fuel ctx conf deadline
                           (nextWait conf wait targetOccurence) notfoundTick
                           targetOccurence result w
              | Some _ =>
                  let notfoundTick := 0 in
                  let '(reached, found, targetOccurence) :=
                    scanTarget (ContinuousTargetOccurence conf) currentState
                      (Target conf) false targetOccurence in
                  if reached then Some ((res, None), w)
                  else
                    let '(found, targetOccurence) :=
                      scanPending currentState (Pending conf) found targetOccurence in
                    if negb found && (0 <? length (Pending conf))%nat
                    then Some ((res, Some (UnexpectedStateError err currentState
                                             (Target conf))), w)
                    else refreshLoop fuel ctx conf deadline
                           (nextWait conf wait targetOccurence) notfoundTick
                           targetOccurence result w
              end
          end
      end
  end.

(** The shortest interval the loop can sleep after its first round. *)
Definition minWait (conf : StateChangeConf) : Z :=
  if (0 <? PollInterval conf) && (PollInterval conf <? 180 * Second)
  then Z.min (PollInterval conf) (100 * Millisecond)
  else 100 * Millisecond.

(** Rounds that fit before the timeout: the first one, one for every
    [minWait] of the timeout, and the round that meets the deadline. *)
Definition rounds (conf : StateChangeConf) : nat :=
  S (S (Z.to_nat (Timeout conf / minWait conf))).

(** [StateChangeConf.WaitForStateContext] *)
Definition WaitForStateContext (ctx : Context) (conf : StateChangeConf)
    (w : World) : option ((option A * option error) * World) :=
  let conf := mkStateChangeConf (Delay conf) (Pending conf) (Refresh conf)
      (Target conf) (Timeout conf) (MinTimeout conf) (PollInterval conf)
      (if NotFoundChecks conf =? 0 then 20 else NotFoundChecks conf)
      (if ContinuousTargetOccurence conf =? 0 then 1
       else ContinuousTargetOccurence conf) in
  let deadline := clock w + Timeout conf in
  let '(ev, w) := select_after ctx deadline (Delay conf) w in
  match ev with
  | Cancelled => Some ((None, Some contextErr), w)
  | TimedOut => Some ((None, Some (TimeoutError None "" (Timeout conf) (Target conf))), w)
  | Woke => refreshLoop (rounds conf) ctx conf deadline 0 0 0 (mkResult None "" None false) w
  end.

End WithResult.
Arguments StateRefreshFunc : clear implicits.
Arguments StateChangeConf : clear implicits.
Arguments Result : clear implicits.
End StateChange.

(** ** The project quota wait *)
Module Quota.
Import StateChange.

(** [limesresources.ProjectResourceReport], [ProjectServiceReport] and
    [ProjectReport]: [Resources] and [Services] are Go maps keyed by
    resource name and service type. *)
Record ProjectResourceReport : Type := mkProjectResourceReport {
  Unit : string;
  Quota : option Z;
  Usage : Z
}.

Record ProjectServiceReport : Type := mkProjectServiceReport {
  Area : string;
  Resources : gmap string ProjectResourceReport
}.

Record ProjectReport : Type := mkProjectReport {
  UUID : string;
  Name : string;
  ParentUUID : string;
  Services : gmap string ProjectServiceReport
}.

(** [limesresources.QuotaRequest]: requested services by type, each a map
    from resource name to the requested value and unit. *)
Abbreviation ServiceQuotaRequest := (gmap string (Z * string)).
Abbreviation QuotaRequest := (gmap string ServiceQuotaRequest).

(** [*gophercloud.ServiceClient], seen through the only call made on it:
    what the remote answers to [GET] of the report of project
    [projectID] in domain [domainID], given how many such requests came
    before and the instant of this one. *)
Definition ServiceClient : Type :=
  string -> string -> nat -> Z -> ProjectReport + get_error.

(** [projects.Get(client, domainID, projectID, projects.GetOpts{}).Extract()] *)
Definition projects_Get (client : ServiceClient) (domainID projectID : string)
    : IO (ProjectReport + get_error) := fun w =>
  (client domainID projectID (length (requests w)) (clock w),
   mkWorld (clock w) (clock w :: requests w)).

Definition unable_to_retrieve (domainID projectID : string) (err : get_error) : string :=
  "Unable to retrieve " +:+ domainID +:+ "/" +:+ projectID +:+
  " ccloud_quota_project_v1: " +:+ get_error_text err.

(** [fmt.Sprintf("There are empty resources: %v", service.Resources)] is
    only evaluated on a map of length zero, which [%v] prints as
    [map[]]. *)
Definition empty_resources_msg : string := "There are empty resources: map[]".

(** [for k, service := range quota.Services]: [Some msg] when the loop
    returns the retryable state, [None] when it runs to its end. *)
Fixpoint rangeServices (services : QuotaRequest) (timeout : Z)
    (entries : list (string * ProjectServiceReport)) : option string :=
  match entries with
  | [] => None
  | (k, service) :: rest =>
      if bool_decide (is_Some (services !! k))
         && (size (Resources service) =? 0)%nat
         && (0 <? timeout)
      then Some empty_resources_msg
      else rangeServices services timeout rest
  end.

(** What the refresh closure returns once [Get] has answered [got]:
    (result, state, error), [None] being nil. [services] is the map the
    pointer argument refers to. *)
Definition refreshResult (domainID projectID : string) (services : QuotaRequest)
    (timeout : Z) (got : ProjectReport + get_error)
    : option ProjectReport * string * option error :=
  match got with
  | inr err =>
      match err with
      | ErrDefault404 _ =>
          if 0 <? timeout
          then (None, unable_to_retrieve domainID projectID err, None)
          else (None, "", Some (errorString (unable_to_retrieve domainID projectID err)))
      | _ => (None, "", Some (errorString (unable_to_retrieve domainID projectID err)))
      end
  | inl quota =>
      match rangeServices services timeout (map_to_list (Services quota)) with
      | Some msg => (None, msg, None)
      | None => (Some quota, "active", None)
      end
  end.

(** The refresh closure. The two [log.Printf] calls leave no trace in the
    world. *)
Definition limesCCloudProjectQuotaV1GetQuota (client : ServiceClient)
    (domainID projectID : string) (services : QuotaRequest) (timeout : Z)
    : StateRefreshFunc ProjectReport := fun w =>
  let '(got, w) := projects_Get client domainID projectID w in
  (refreshResult domainID projectID services timeout got, w).

(** The configuration handed to the SDK when a timeout is set; the fields
    the source leaves out hold their zero values. *)
Definition waitForAgent (client : ServiceClient) (domainID projectID : string)
    (services : QuotaRequest) (timeout : Z) : StateChangeConf ProjectReport :=
  {| Target := ["active"];
     Refresh := limesCCloudProjectQuotaV1GetQuota client domainID projectID services timeout;
     Timeout := timeout;
     Delay := 1 * Second;
     MinTimeout := 1 * Second;
     NotFoundChecks := 1000;
     Pending := [];
     PollInterval := 0;
     ContinuousTargetOccurence := 0 |}.

(** [None] is "the poll ran out of fuel"; otherwise the returned error
    ([None]: nil) and the world after the call. [fmt.Errorf(msg)] has no
    arguments to format, its text is [msg]. *)
Definition limesCCloudProjectQuotaV1WaitForProject (ctx : Context)
    (client : ServiceClient) (domainID projectID : string)
    (services : QuotaRequest) (timeout : Z) (w : World)
    : option (option error * World) :=
  let msg := "" in
  let polled :=
    if 0 <? timeout then
      match WaitForStateContext ctx
              (waitForAgent client domainID projectID services timeout) w with
      | Some ((_, err), w) => Some (msg, err, w)
      | None => None
      end
    else
      let '((_, msg, err), w) :=
        limesCCloudProjectQuotaV1GetQuota client domainID projectID services timeout w in
      Some (msg, err, w) in
  match polled with
  | None => None
  | Some (msg, err, w) =>
      if (0 <? String.length msg)%nat && negb (String.eqb msg "active")
      then Some (Some (errorString msg), w)
      else match err with
           | Some e => Some (Some e, w)
           | None => Some (None, w)
           end
  end.

(** The three shapes of a refresh outcome. *)
Definition is_pending (r : option ProjectReport * string * option error) : Prop :=
  exists msg, r = (None, msg, None) /\ msg <> "".

Definition is_active (r : option ProjectReport * string * option error) : Prop :=
  exists quota, r = (Some quota, "active", None).

Definition is_failed (r : option ProjectReport * string * option error) : Prop :=
  exists e, r = (None, "", Some e).

(** The answers the remote gave to the logged requests, newest first:
    the request sent at [t] after [length older] earlier ones. *)
Fixpoint answers (client : ServiceClient) (domainID projectID : string)
    (reqs : list Z) : list (ProjectReport + get_error) :=
  match reqs with
  | [] => []
  | t :: older =>
      client domainID projectID (length older) t
        :: answers client domainID projectID older
  end.

(** Consecutive instants of a log (newest first) are at least [gap]
    apart. *)
Fixpoint spaced (gap : Z) (reqs : list Z) : Prop :=
  match reqs with
  | t2 :: older =>
      match older with
      | t1 :: _ => gap <= t2 - t1
      | [] => True
      end /\ spaced gap older
  | [] => True
  end.

(** The answers given to the [n] newest requests of a log. *)
Definition newest_answers (client : ServiceClient) (domainID projectID : string)
    (n : nat) (reqs : list Z) : list (ProjectReport + get_error) :=
  take n (answers client domainID projectID reqs).

(** The requests sent, and the answers received, between the worlds [w]
    and [w']. *)
Definition fresh_requests (w w' : World) : list Z :=
  take (length (requests w') - length (requests w)) (requests w').

Definition fresh_answers (client : ServiceClient) (domainID projectID : string)
    (w w' : World) : list (ProjectReport + get_error) :=
  newest_answers client domainID projectID
    (length (requests w') - length (requests w)) (requests w').

Definition is_timeout (timeout : Z) (e : error) : Prop :=
  exists lastError lastState, e = TimeoutError lastError lastState timeout ["active"].

(** How a poll that received the answers [got] (newest first) ends with
    the error [r]: every answer but the newest was pending, and the
    newest decides. A report that counts as active ends the poll without
    error, a failure ends it with its error; after a pending answer (or
    none at all) the poll ends by cancellation, by the timeout, or with
    the 1001st pending answer in a row. *)
Definition ends_poll (domainID projectID : string) (services : QuotaRequest)
    (timeout : Z) (got : list (ProjectReport + get_error)) (r : option error) : Prop :=
  match got with
  | [] => exists e, r = Some e /\ (e = contextErr \/ is_timeout timeout e)
  | a :: older =>
      Forall (fun a => is_pending (refreshResult domainID projectID services timeout a)) older
      /\ match refreshResult domainID projectID services timeout a with
         | (Some _, _, _) => r = None
         | (None, _, Some e) => r = Some e
         | (None, _, None) =>
             exists e, r = Some e
               /\ (e = contextErr \/ is_timeout timeout e
                   \/ (e = NotFoundError None 1001 /\ length got = 1001%nat))
         end
  end.

End Quota.

(** ** Resource names and bursting of the quota resource *)
Module QuotaHelpers.

(** [sanitize]: [strings.Replace(s, "-", "", -1)] deletes every
    occurrence of the one-byte string ["-"]; a Go string is its sequence
    of bytes, and the byte of the hyphen is no part of a longer UTF-8
    sequence. *)
Fixpoint sanitize (s : string) : string :=
  match s with
  | EmptyString => EmptyString
  | String.String c rest =>
      if Ascii.eqb c "-"%char then sanitize rest else String.String c (sanitize rest)
  end.

Section WithFloat.
(** [float64] and its zero value; the helpers only move such values. *)
Context {float64 : Type} (zero : float64).

(** The dynamic types that reach the bursting helpers. A
    [limesresources.BurstingMultiplier] is a defined type over [float64]
    and keeps its own tag under a type assertion. *)
#[local] Unset Elimination Schemes.
Inductive value : Type :=
  | VNil
  | VBool (b : bool)
  | VFloat64 (f : float64)
  | VBurstingMultiplier (f : float64)
  | VSliceAny (l : list value)
  | VMapAny (m : gmap string value)
  | VSliceMapAny (l : list (gmap string value)).
#[local] Set Elimination Schemes.

(** [limesresources.ProjectBurstingInfo] *)
Record ProjectBurstingInfo : Type := mkProjectBurstingInfo {
  Enabled : bool;
  Multiplier : float64
}.

(** The result is a pointer: [None] is nil. *)
Definition expandBurstingLimesCCloudProjectQuotaV1 (raw : value)
    : option ProjectBurstingInfo :=
  match raw with
  | VSliceAny v =>
      match v with
      | [] => None
      | VMapAny v :: _ =>
          Some (mkProjectBurstingInfo
                  (match v !! "enabled" with
                   | Some (VBool b) => b
                   | _ => false
                   end)
                  (match v !! "multiplier" with
                   | Some (VFloat64 f) => f
                   | _ => zero
                   end))
      | _ :: _ => None
      end
  | _ => None
  end.

Definition flattenBurstingLimesCCloudProjectQuotaV1
    (bursting : option ProjectBurstingInfo) : list (gmap string value) :=
  match bursting with
  | None => []
  | Some b =>
      [ {[ "enabled" := VBool (Enabled b);
           "multiplier" := VBurstingMultiplier (Multiplier b) ]} ]
  end.

End WithFloat.
Arguments value : clear implicits.
Arguments ProjectBurstingInfo : clear implicits.
End QuotaHelpers.

(** * Properties *)

(** ** Billing helpers *)
Section BillingProperties.
Import Billing.

Lemma expandCostObjectRange_skip (co : CostObject) (pre rest : list any) :
  Forall (fun v => is_map v = false) pre ->
  expandCostObjectRange co (pre ++ rest) = expandCostObjectRange co rest.
Proof.
  induction 1 as [|v pre Hv _ IH]; [reflexivity|].
  destruct v; simpl in *; try discriminate; exact IH.
Qed.

Lemma expandCostObjectMap_inherited (co : CostObject) (m : gmap string any) :
  m !! "inherited" = Some (Bool true) ->
  expandCostObjectMap co m = Returns (mkCostObject true (Name co) (Type' co)).
Proof. intros H. unfold expandCostObjectMap. rewrite H. reflexivity. Qed.

(** C9. When the first element of dynamic type [map[string]any] sets
    ["inherited"] to [true], [billingProjectExpandCostObject] returns
    [Inherited = true] with empty [Name] and [Type], whatever ["name"] and
    ["type"] hold; a returned object carries a name or a type only when
    ["inherited"] is absent or false, and in that case string values of
    ["name"] and ["type"] are copied. *)
Theorem expandCostObject_inherited (pre post : list any) (m : gmap string any) :
  Forall (fun v => is_map v = false) pre ->
  let raw := SliceAny (pre ++ MapAny m :: post) in
  (m !! "inherited" = Some (Bool true) ->
     billingProjectExpandCostObject raw = Returns (mkCostObject true "" ""))
  /\ (forall co, billingProjectExpandCostObject raw = Returns co ->
        Name co <> "" \/ Type' co <> "" ->
        m !! "inherited" = None \/ m !! "inherited" = Some (Bool false))
  /\ (m !! "inherited" = None \/ m !! "inherited" = Some (Bool false) ->
        forall n t, m !! "name" = Some (String n) -> m !! "type" = Some (String t) ->
        billingProjectExpandCostObject raw = Returns (mkCostObject false n t)).
Proof.
  intros Hpre raw. unfold raw, billingProjectExpandCostObject.
  rewrite (expandCostObjectRange_skip _ _ _ Hpre). simpl.
  split; [|split].
  - intros H. rewrite (expandCostObjectMap_inherited _ _ H). reflexivity.
  - intros co Hco Hne.
    unfold expandCostObjectMap in Hco.
    destruct (m !! "inherited") as [x|]; [|auto].
    destruct x; simpl in Hco; try discriminate.
    destruct b; [|auto].
    simpl in Hco. injection Hco as <-. simpl in Hne. destruct Hne; congruence.
  - intros Hinh n t Hn Ht. unfold expandCostObjectMap.
    destruct Hinh as [-> | ->]; simpl; rewrite Hn; simpl; rewrite Ht; reflexivity.
Qed.

Lemma expandCostObject_inherited_witness :
  billingProjectExpandCostObject
    (SliceAny [String "skipped";
               MapAny {[ "inherited" := Bool true; "name" := String "n" ]};
               MapAny {[ "name" := String "later" ]}])
  = Returns (mkCostObject true "" "").
Proof.
  apply (proj1 (expandCostObject_inherited [String "skipped"]
                  [MapAny {[ "name" := String "later" ]}]
                  {[ "inherited" := Bool true; "name" := String "n" ]}
                  ltac:(repeat constructor))).
  vm_compute. reflexivity.
Defined.

Lemma flatten_lookups (e : ExtCertification) :
  exists m, billingProjectFlattenExtCertificationV1 (Some e) = [m]
    /\ m !! "c5" = Some (Bool (C5 e)) /\ m !! "iso" = Some (Bool (ISO e))
    /\ m !! "pci" = Some (Bool (PCI e)) /\ m !! "soc1" = Some (Bool (SOC1 e))
    /\ m !! "soc2" = Some (Bool (SOC2 e)) /\ m !! "sox" = Some (Bool (SOX e))
    /\ m !! "SOX" = None.
Proof.
  eexists. split; [reflexivity|].
  repeat split; vm_compute; reflexivity.
Qed.

Lemma expandExtCertification_schema (e : ExtCertification) :
  billingProjectExpandExtCertificationV1
    (as_schema_list (billingProjectFlattenExtCertificationV1 (Some e)))
  = Some (mkExtCertification (C5 e) (ISO e) (PCI e) (SOC1 e) (SOC2 e) false).
Proof.
  destruct (flatten_lookups e) as (m & -> & H1 & H2 & H3 & H4 & H5 & _ & H7).
  unfold as_schema_list, billingProjectExpandExtCertificationV1, bool_entry.
  simpl. rewrite H1, H2, H3, H4, H5, H7. reflexivity.
Qed.

(** C10, as stated, fails: handed to expand as it is, the
    [[]map[string]any] that flatten returns is not a [[]any], the first
    type assertion fails and expand returns nil, so no value agreeing
    with [e] comes back. *)
Lemma extCertification_direct_roundtrip_counterexample :
  let e := mkExtCertification true false true false true false in
  ~ exists e',
      billingProjectExpandExtCertificationV1
        (as_any (billingProjectFlattenExtCertificationV1 (Some e))) = Some e'
      /\ C5 e' = C5 e /\ ISO e' = ISO e /\ PCI e' = PCI e
      /\ SOC1 e' = SOC1 e /\ SOC2 e' = SOC2 e /\ SOX e' = false.
Proof. intros e (e' & H & _). discriminate H. Qed.

(** C10, amended. For every non-nil [e], flatten followed by expand on
    the [[]any] of [map[string]any] form of flatten's result yields a
    value that agrees with [e] on C5, ISO, PCI, SOC1 and SOC2 and whose
    SOX is false (flatten writes ["sox"], expand reads ["SOX"]); that round
    trip is the identity exactly for [SOX e = false]. Expand applied to
    flatten's result directly returns nil. *)
Theorem extCertification_roundtrip (e : ExtCertification) :
  let back := billingProjectExpandExtCertificationV1
                (as_schema_list (billingProjectFlattenExtCertificationV1 (Some e))) in
  (exists e', back = Some e'
      /\ C5 e' = C5 e /\ ISO e' = ISO e /\ PCI e' = PCI e
      /\ SOC1 e' = SOC1 e /\ SOC2 e' = SOC2 e /\ SOX e' = false)
  /\ (back = Some e <-> SOX e = false)
  /\ billingProjectExpandExtCertificationV1
       (as_any (billingProjectFlattenExtCertificationV1 (Some e))) = None.
Proof.
  intros back. unfold back. rewrite expandExtCertification_schema.
  split; [|split].
  - eexists. split; [reflexivity|]. simpl. repeat split.
  - destruct e as [c5 iso pci soc1 soc2 sox]. simpl. split.
    + intros [= <-]. reflexivity.
    + intros ->. reflexivity.
  - reflexivity.
Qed.

End BillingProperties.

(** ** The refresh function *)
Section RefreshProperties.
Import StateChange Quota.

Implicit Types (client : ServiceClient) (services : QuotaRequest).
Implicit Types (quota : ProjectReport) (service : ProjectServiceReport).

Lemma GetQuota_unfold client domainID projectID services timeout w :
  limesCCloudProjectQuotaV1GetQuota client domainID projectID services timeout w
  = (refreshResult domainID projectID services timeout
       (client domainID projectID (length (requests w)) (clock w)),
     mkWorld (clock w) (clock w :: requests w)).
Proof. reflexivity. Qed.

Lemma rangeServices_Some services timeout entries msg :
  rangeServices services timeout entries = Some msg ->
  msg = empty_resources_msg /\ 0 < timeout /\
  exists k service, (k, service) ∈ entries /\ is_Some (services !! k)
                    /\ Resources service = ∅.
Proof.
  induction entries as [|[k service] rest IH]; simpl; [discriminate|].
  destruct (bool_decide (is_Some (services !! k))) eqn:Hk;
    [|simpl; intros H; destruct (IH H) as (? & ? & k' & s' & ? & ?);
      repeat split; try done; exists k', s'; split; [by right|done]].
  destruct (size (Resources service) =? 0)%nat eqn:Hsz;
    [|simpl; intros H; destruct (IH H) as (? & ? & k' & s' & ? & ?);
      repeat split; try done; exists k', s'; split; [by right|done]].
  destruct (0 <? timeout) eqn:Ht;
    [|simpl; intros H; destruct (IH H) as (? & ? & k' & s' & ? & ?);
      repeat split; try done; exists k', s'; split; [by right|done]].
  simpl. intros [= <-]. split; [done|]. split; [lia|].
  exists k, service. split; [by left|]. split.
  - by apply bool_decide_eq_true in Hk.
  - apply map_size_empty_iff. by apply Nat.eqb_eq in Hsz.
Qed.

Lemma rangeServices_None services timeout entries :
  rangeServices services timeout entries = None ->
  timeout <= 0 \/
  forall k service, (k, service) ∈ entries -> is_Some (services !! k) ->
                    Resources service <> ∅.
Proof.
  destruct (Z.leb_spec timeout 0) as [Hle|Hlt]; [by left|right].
  induction entries as [|[k0 s0] rest IH]; simpl in *.
  - intros k service Hin. by apply elem_of_nil in Hin.
  - destruct (bool_decide (is_Some (services !! k0))) eqn:Hk; simpl in *.
    + destruct (size (Resources s0) =? 0)%nat eqn:Hsz; simpl in *.
      * replace (0 <? timeout) with true in H by (symmetry; lia). discriminate.
      * intros k service [[= -> ->]|Hin]%elem_of_cons Hsome.
        -- intros Hempty. apply map_size_empty_iff in Hempty.
           apply Nat.eqb_neq in Hsz. done.
        -- by apply (IH H k service).
    + intros k service [[= -> ->]|Hin]%elem_of_cons Hsome.
      * apply bool_decide_eq_false in Hk. done.
      * by apply (IH H k service).
Qed.

(** The outcome of the range loop does not depend on the order in which
    the entries of the Go map are visited. *)
Lemma rangeServices_Permutation services timeout entries entries' :
  entries ≡ₚ entries' ->
  rangeServices services timeout entries = rangeServices services timeout entries'.
Proof.
  intros Hp.
  destruct (rangeServices services timeout entries) as [msg|] eqn:H1;
    destruct (rangeServices services timeout entries') as [msg'|] eqn:H2; try done.
  - apply rangeServices_Some in H1 as (-> & _). apply rangeServices_Some in H2 as (-> & _). done.
  - exfalso. apply rangeServices_Some in H1 as (_ & Ht & k & sv & Hin & Hs & He).
    apply rangeServices_None in H2 as [?|H2]; [lia|].
    rewrite Hp in Hin. by apply (H2 k sv).
  - exfalso. apply rangeServices_Some in H2 as (_ & Ht & k & sv & Hin & Hs & He).
    apply rangeServices_None in H1 as [?|H1]; [lia|].
    rewrite <- Hp in Hin. by apply (H1 k sv).
Qed.

(** What the refresh makes of a report that was retrieved. *)
Lemma refreshResult_report domainID projectID services timeout quota :
  let r := refreshResult domainID projectID services timeout (inl quota) in
  (r = (Some quota, "active", None)
   /\ (timeout <= 0 \/
       forall k service, is_Some (services !! k) ->
         Services quota !! k = Some service -> Resources service <> ∅))
  \/ (r = (None, empty_resources_msg, None)
      /\ 0 < timeout
      /\ exists k service, is_Some (services !! k)
           /\ Services quota !! k = Some service /\ Resources service = ∅).
Proof.
  intros r. unfold r, refreshResult.
  destruct (rangeServices services timeout (map_to_list (Services quota)))
    as [msg|] eqn:Hrange.
  - right. apply rangeServices_Some in Hrange as (-> & Ht & k & service & Hin & Hs & He).
    apply elem_of_map_to_list in Hin. split; [done|]. split; [done|]. by exists k, service.
  - left. split; [done|].
    apply rangeServices_None in Hrange as [?|Hall]; [by left|right].
    intros k service Hs Hk. apply (Hall k service); [|done].
    by apply elem_of_map_to_list.
Qed.

(** Every answer of the remote falls in one of the three shapes. *)
Lemma refreshResult_cases domainID projectID services timeout got :
  let r := refreshResult domainID projectID services timeout got in
  (is_pending r /\ 0 < timeout)
  \/ (exists quota, got = inl quota /\ r = (Some quota, "active", None))
  \/ is_failed r.
Proof.
  intros r. unfold r, refreshResult. destruct got as [quota|err].
  - destruct (rangeServices _ _ _) as [msg|] eqn:H.
    + left. apply rangeServices_Some in H as (-> & Ht & _).
      split; [|done]. exists empty_resources_msg. split; [done|discriminate].
    + right; left. by exists quota.
  - destruct err as [text|text].
    + destruct (Z.ltb_spec 0 timeout).
      * left. split; [|done]. eexists. split; [done|discriminate].
      * right; right. by eexists.
    + right; right. by eexists.
Qed.

(** C1, as stated, fails: with a zero timeout the refresh reports
    ["active"] although the requested service ["compute"] is in the
    report with an empty resource list. *)
Lemma refresh_active_iff_counterexample :
  let quota := mkProjectReport "uuid" "project" "domain"
                 {[ "compute" := mkProjectServiceReport "compute" ∅ ]} in
  let client : ServiceClient := fun _ _ _ _ => inl quota in
  let services : QuotaRequest := {[ "compute" := {[ "cores" := (10, "") ]} ]} in
  let r := (limesCCloudProjectQuotaV1GetQuota client "d" "p" services 0 (mkWorld 0 [])).1 in
  r = (Some quota, "active", None)
  /\ is_Some (services !! "compute")
  /\ Services quota !! "compute" = Some (mkProjectServiceReport "compute" ∅)
  /\ ~ (r = (Some quota, "active", None)
        <-> forall k, is_Some (services !! k) ->
              exists service, Services quota !! k = Some service
                              /\ Resources service <> ∅).
Proof.
  intros quota client services r.
  assert (r = (Some quota, "active", None)) as Hr by (vm_compute; reflexivity).
  assert (is_Some (services !! "compute")) as Hreq
    by (unfold services; rewrite lookup_singleton_eq; by eexists).
  assert (Services quota !! "compute" = Some (mkProjectServiceReport "compute" ∅))
    as Hrep by apply lookup_singleton_eq.
  split; [exact Hr|]. split; [exact Hreq|]. split; [exact Hrep|].
  intros [H _]. destruct (H Hr "compute" Hreq) as (service & Hs & Hne).
  rewrite Hrep in Hs. injection Hs as <-. by apply Hne.
Qed.

(** C1, amended. For a report retrieved without error the refresh returns
    the report with state ["active"] and no error exactly when the timeout
    is not positive or every service that is both named in the request
    and present in the report has a non-empty resource list; otherwise it
    returns the pending state. *)
Theorem refresh_active_iff client domainID projectID services timeout w quota :
  client domainID projectID (length (requests w)) (clock w) = inl quota ->
  let r := (limesCCloudProjectQuotaV1GetQuota client domainID projectID services timeout w).1 in
  (r = (Some quota, "active", None)
   <-> (timeout <= 0 \/
        forall k service, is_Some (services !! k) ->
          Services quota !! k = Some service -> Resources service <> ∅))
  /\ (r = (Some quota, "active", None) \/ r = (None, empty_resources_msg, None)).
Proof.
  intros Hget r. unfold r. rewrite GetQuota_unfold, Hget. cbn [fst].
  destruct (refreshResult_report domainID projectID services timeout quota)
    as [[-> Hall] | (-> & Ht & k & service & Hs & Hk & He)].
  - split; [|by left]. done.
  - split; [|by right]. split; [discriminate|].
    intros [?|Hall]; [lia|]. exfalso. by apply (Hall k service).
Qed.

Lemma refresh_active_iff_witness :
  (limesCCloudProjectQuotaV1GetQuota
     (fun _ _ _ _ => inl (mkProjectReport "uuid" "project" "domain" ∅))
     "d" "p" ∅ Second (mkWorld 0 [])).1
  = (Some (mkProjectReport "uuid" "project" "domain" ∅), "active", None).
Proof.
  apply (proj1 (refresh_active_iff
                  (fun _ _ _ _ => inl (mkProjectReport "uuid" "project" "domain" ∅))
                  "d" "p" ∅ Second (mkWorld 0 []) _ eq_refl)).
  right. intros k service _ Hk. simpl in Hk. by rewrite lookup_empty in Hk.
Defined.

(** C2, as stated, fails: the report holds the service ["dns"] with an
    empty resource list and the timeout is positive, yet the refresh
    reports ["active"], because ["dns"] is not among the requested
    services. *)
Lemma refresh_empty_resources_counterexample :
  let quota := mkProjectReport "uuid" "project" "domain"
                 {[ "dns" := mkProjectServiceReport "dns" ∅ ]} in
  let client : ServiceClient := fun _ _ _ _ => inl quota in
  let services : QuotaRequest := {[ "compute" := {[ "cores" := (10, "") ]} ]} in
  let r := (limesCCloudProjectQuotaV1GetQuota client "d" "p" services Second
              (mkWorld 0 [])).1 in
  (exists k service, Services quota !! k = Some service /\ Resources service = ∅)
  /\ 0 < Second
  /\ r = (Some quota, "active", None)
  /\ ~ is_pending r.
Proof.
  intros quota client services r. split; [|split; [|split]].
  - exists "dns", (mkProjectServiceReport "dns" ∅). split; [|done].
    apply lookup_singleton_eq.
  - done.
  - vm_compute. reflexivity.
  - intros (msg & H & _). vm_compute in H. discriminate H.
Qed.

(** C2, amended. For a report retrieved without error, if the report
    holds a service that is named in the request and whose resource list
    is empty, and the timeout is positive, the refresh reports the
    retryable pending state: nil result, a non-empty message other than
    ["active"], nil error. *)
Theorem refresh_empty_resources_pending
    client domainID projectID services timeout w quota k service :
  client domainID projectID (length (requests w)) (clock w) = inl quota ->
  Services quota !! k = Some service ->
  Resources service = ∅ ->
  is_Some (services !! k) ->
  0 < timeout ->
  let r := (limesCCloudProjectQuotaV1GetQuota client domainID projectID services timeout w).1 in
  r = (None, empty_resources_msg, None)
  /\ is_pending r /\ r.1.2 <> "active" /\ ~ is_active r /\ ~ is_failed r.
Proof.
  intros Hget Hk He Hs Ht r. unfold r. rewrite GetQuota_unfold, Hget. cbn [fst].
  destruct (refreshResult_report domainID projectID services timeout quota)
    as [[_ [?|Hall]] | (-> & _)].
  - lia.
  - exfalso. by apply (Hall k service).
  - split; [done|]. split; [|split; [|split]].
    + exists empty_resources_msg. split; [done|discriminate].
    + discriminate.
    + intros (q & Hq). discriminate Hq.
    + intros (e & Hq). discriminate Hq.
Qed.

Lemma refresh_empty_resources_pending_witness :
  (limesCCloudProjectQuotaV1GetQuota
     (fun _ _ _ _ => inl (mkProjectReport "uuid" "project" "domain"
                            {[ "compute" := mkProjectServiceReport "compute" ∅ ]}))
     "d" "p" {[ "compute" := {[ "cores" := (10, "") ]} ]} Second (mkWorld 0 [])).1
  = (None, empty_resources_msg, None).
Proof.
  apply (refresh_empty_resources_pending
           (fun _ _ _ _ => inl (mkProjectReport "uuid" "project" "domain"
                                  {[ "compute" := mkProjectServiceReport "compute" ∅ ]}))
           "d" "p" {[ "compute" := {[ "cores" := (10, "") ]} ]} Second (mkWorld 0 [])
           _ "compute" (mkProjectServiceReport "compute" ∅) eq_refl).
  - apply lookup_singleton_eq.
  - reflexivity.
  - eexists. apply lookup_singleton_eq.
  - reflexivity.
Defined.

(** C3. When [Get] fails with a 404 Not Found error, the refresh reports
    a retryable pending state (nil result, non-empty message, nil error)
    if the timeout is positive, and turns the 404 into a returned error
    (nil result, empty message, non-nil error) if the timeout is zero. *)
Theorem refresh_not_found client domainID projectID services timeout w text :
  client domainID projectID (length (requests w)) (clock w) = inr (ErrDefault404 text) ->
  let r := (limesCCloudProjectQuotaV1GetQuota client domainID projectID services timeout w).1 in
  (0 < timeout -> exists msg, r = (None, msg, None) /\ msg <> "")
  /\ (timeout = 0 -> exists e, r = (None, "", Some e)).
Proof.
  intros Hget r. unfold r. rewrite GetQuota_unfold, Hget. simpl. split.
  - intros Ht. replace (0 <? timeout) with true by (symmetry; lia).
    eexists. split; [reflexivity|discriminate].
  - intros ->. simpl. by eexists.
Qed.

Lemma refresh_not_found_witness :
  (exists msg,
      (limesCCloudProjectQuotaV1GetQuota (fun _ _ _ _ => inr (ErrDefault404 "Resource not found"))
         "d" "p" ∅ Second (mkWorld 0 [])).1 = (None, msg, None) /\ msg <> "")
  /\ (exists e,
      (limesCCloudProjectQuotaV1GetQuota (fun _ _ _ _ => inr (ErrDefault404 "Resource not found"))
         "d" "p" ∅ 0 (mkWorld 0 [])).1 = (None, "", Some e)).
Proof.
  split.
  - apply (proj1 (refresh_not_found (fun _ _ _ _ => inr (ErrDefault404 "Resource not found"))
                    "d" "p" ∅ Second (mkWorld 0 []) "Resource not found" eq_refl)).
    reflexivity.
  - apply (proj2 (refresh_not_found (fun _ _ _ _ => inr (ErrDefault404 "Resource not found"))
                    "d" "p" ∅ 0 (mkWorld 0 []) "Resource not found" eq_refl)).
    reflexivity.
Defined.

(** C5. Every invocation of the refresh function yields exactly one of
    three outcomes: pending (nil value, non-empty message, nil error),
    active (a quota report, message ["active"], nil error) or immediate
    error (nil value, empty message, non-nil error); a non-nil value only
    ever comes with the state ["active"]. *)
Theorem refresh_outcomes client domainID projectID services timeout w :
  let r := (limesCCloudProjectQuotaV1GetQuota client domainID projectID services timeout w).1 in
  ((is_pending r /\ ~ is_active r /\ ~ is_failed r)
   \/ (is_active r /\ ~ is_pending r /\ ~ is_failed r)
   \/ (is_failed r /\ ~ is_pending r /\ ~ is_active r))
  /\ (forall value state err, r = (Some value, state, err) -> state = "active" /\ err = None)
  /\ (forall value state, r = (value, state, None) ->
        is_pending r \/ state = "active").
Proof.
  intros r. unfold r. rewrite GetQuota_unfold. simpl.
  destruct (refreshResult_cases domainID projectID services timeout
              (client domainID projectID (length (requests w)) (clock w)))
    as [[(msg & -> & Hmsg) _] | [(quota & _ & ->) | (e & ->)]].
  - split; [|split].
    + left. split; [by exists msg|]. split; intros (x & Hx); discriminate Hx.
    + intros ? ? ? [=].
    + intros ? ? _. left. by exists msg.
  - split; [|split].
    + right; left. split; [by exists quota|].
      split; [intros (x & Hx & _)|intros (x & Hx)]; discriminate Hx.
    + by intros ? ? ? [= <- <- <-].
    + intros ? ? [= <- <-]. by right.
  - split; [|split].
    + right; right. split; [by exists e|].
      split; [intros (x & Hx & _)|intros (x & Hx)]; discriminate Hx.
    + intros ? ? ? [=].
    + intros ? ? [=].
Qed.

End RefreshProperties.

(** ** The polling primitive always returns *)
Section LoopTotality.
Import StateChange.
Context {A : Type} (ctx : Context) (conf : StateChangeConf A).

(** A refresh never sets the clock back. *)
Hypothesis Refresh_clock : forall w, clock w <= clock (Refresh conf w).2.

Lemma minWait_pos : 0 < minWait conf.
Proof.
  unfold minWait, Second, Millisecond.
  destruct (Z.ltb_spec 0 (PollInterval conf)); cbn [andb]; [|lia].
  destruct (PollInterval conf <? 180 * (1000 * 1000000)); lia.
Qed.

Lemma minWait_first : minWait conf <= 100 * Millisecond.
Proof.
  unfold minWait.
  destruct ((0 <? PollInterval conf) && (PollInterval conf <? 180 * Second)); lia.
Qed.

Lemma nextWait_lower (wait targetOccurence : Z) :
  minWait conf <= wait -> minWait conf <= nextWait conf wait targetOccurence.
Proof.
  pose proof minWait_pos as Hpos. pose proof minWait_first as Hfirst.
  unfold nextWait. intros Hw.
  assert (minWait conf <= (if targetOccurence =? 0 then wait * 2 else wait)) as Hw2
    by (destruct (targetOccurence =? 0); lia).
  set (wait2 := if targetOccurence =? 0 then wait * 2 else wait) in *.
  destruct ((0 <? PollInterval conf) && (PollInterval conf <? 180 * Second)) eqn:Hp.
  - unfold minWait. rewrite Hp. lia.
  - destruct (Z.ltb_spec wait2 (MinTimeout conf)); [lia|].
    destruct (Z.ltb_spec (10 * Second) wait2); [|lia].
    unfold Second, Millisecond in *. lia.
Qed.

Lemma rounds_left_step (deadline now now' : Z) :
  now + minWait conf <= now' ->
  now + minWait conf < deadline ->
  Z.max 0 ((deadline - now') / minWait conf) + 1
  <= Z.max 0 ((deadline - now) / minWait conf).
Proof.
  pose proof minWait_pos as Hpos. intros H1 H2.
  assert ((deadline - now') / minWait conf <= (deadline - now - minWait conf) / minWait conf)
    as Hle by (apply Z.div_le_mono; lia).
  replace (deadline - now - minWait conf)
    with ((deadline - now) + (-1) * minWait conf) in Hle by lia.
  rewrite Z.div_add in Hle by lia.
  assert (1 <= (deadline - now) / minWait conf)
    by (apply Z.div_le_lower_bound; lia).
  lia.
Qed.

Lemma rounds_left_mono (deadline now now' : Z) :
  now <= now' ->
  Z.max 0 ((deadline - now') / minWait conf)
  <= Z.max 0 ((deadline - now) / minWait conf).
Proof.
  pose proof minWait_pos as Hpos. intros H.
  assert ((deadline - now') / minWait conf <= (deadline - now) / minWait conf)
    by (apply Z.div_le_mono; lia).
  lia.
Qed.

Lemma refreshLoop_total (fuel : nat) :
  forall (deadline wait notfoundTick targetOccurence : Z) (result : Result A) (w : World),
  wait = 0 \/ minWait conf <= wait ->
  Z.max 0 ((deadline - clock w) / minWait conf) + (if wait =? 0 then 2 else 1)
    <= Z.of_nat fuel ->
  is_Some (refreshLoop fuel ctx conf deadline wait notfoundTick targetOccurence result w).
Proof.
  pose proof minWait_pos as Hpos. pose proof minWait_first as Hfirst.
  induction fuel as [|fuel IH]; intros deadline wait nf occ result w Hwait Hfuel.
  { destruct (wait =? 0); lia. }
  cbn [refreshLoop]. unfold select_after.
  destruct (cancelled_by ctx _); [by eexists|].
  destruct (Z.leb_spec deadline (clock w + Z.max 0 wait)) as [|Hlt]; [by eexists|].
  set (w1 := mkWorld (clock w + Z.max 0 wait) (requests w)).
  set (wait1 := if wait =? 0 then 100 * Millisecond else wait).
  pose proof (Refresh_clock w1) as Hclock.
  destruct (Refresh conf w1) as [[[res st] err] w2]. simpl in Hclock.
  assert (minWait conf <= wait1) as Hwait1.
  { unfold wait1. destruct (Z.eqb_spec wait 0); lia. }
  assert (forall wait2, minWait conf <= wait2 ->
            Z.max 0 ((deadline - clock w2) / minWait conf)
              + (if wait2 =? 0 then 2 else 1) <= Z.of_nat fuel) as Hnext.
  { intros wait2 Hw2. replace (wait2 =? 0) with false by (symmetry; lia).
    destruct Hwait as [->|Hwait].
    - simpl in Hfuel.
      pose proof (rounds_left_mono deadline (clock w) (clock w2) ltac:(lia)). lia.
    - replace (wait =? 0) with false in Hfuel by (symmetry; lia).
      pose proof (rounds_left_step deadline (clock w) (clock w2) ltac:(lia) ltac:(lia)).
      lia. }
  destruct err as [e|]; [by eexists|].
  destruct res as [a|].
  - destruct (scanTarget _ _ _ _ _) as [[reached found] occ1].
    destruct reached; [by eexists|].
    destruct (scanPending _ _ _ _) as [found2 occ2].
    destruct (negb found2 && _); [by eexists|].
    apply IH; [right; by apply nextWait_lower|]. apply Hnext. by apply nextWait_lower.
  - destruct (length (Target conf) =? 0)%nat.
    + destruct (ContinuousTargetOccurence conf =? occ + 1); [by eexists|].
      apply IH; [by right|]. by apply Hnext.
    + destruct (NotFoundChecks conf <? nf + 1); [by eexists|].
      apply IH; [right; by apply nextWait_lower|]. apply Hnext. by apply nextWait_lower.
Qed.

End LoopTotality.

Lemma WaitForStateContext_total {A : Type} (ctx : Context)
    (conf : StateChange.StateChangeConf A) (w : World) :
  (forall w, clock w <= clock (StateChange.Refresh conf w).2) ->
  is_Some (StateChange.WaitForStateContext ctx conf w).
Proof.
  intros Hclock. unfold StateChange.WaitForStateContext.
  set (conf' := StateChange.mkStateChangeConf _ _ _ _ _ _ _ _ _).
  unfold StateChange.select_after at 1.
  destruct (StateChange.cancelled_by ctx _); [by eexists|].
  destruct (Z.leb_spec (clock w + StateChange.Timeout conf')
              (clock w + Z.max 0 (StateChange.Delay conf'))) as [|Hlt]; [by eexists|].
  apply refreshLoop_total; [exact Hclock|by left|].
  cbn [clock]. unfold StateChange.rounds.
  pose proof (minWait_pos conf') as Hpos.
  assert ((clock w + StateChange.Timeout conf'
             - (clock w + Z.max 0 (StateChange.Delay conf'))) / StateChange.minWait conf'
          <= StateChange.Timeout conf' / StateChange.minWait conf')
    by (apply Z.div_le_mono; lia).
  assert (0 <= StateChange.Timeout conf' / StateChange.minWait conf')
    by (apply Z.div_pos; lia).
  change (0 =? 0) with true. cbv iota. lia.
Qed.

(** ** The trace of a poll with a positive timeout *)
Section PollTrace.
Import StateChange Quota.
Context (ctx : Context) (client : ServiceClient) (domainID projectID : string).
Context (services : QuotaRequest) (timeout : Z) (w0 : World).

Local Abbreviation refresh :=
  (limesCCloudProjectQuotaV1GetQuota client domainID projectID services timeout).
Local Abbreviation conf1 :=
  (mkStateChangeConf (1 * Second) [] refresh ["active"] timeout (1 * Second) 0 1000 1).
Local Abbreviation deadline := (clock w0 + timeout).
Local Abbreviation rr := (refreshResult domainID projectID services timeout).
Local Abbreviation got new :=
  (newest_answers client domainID projectID (length new) (new ++ requests w0)).
Local Abbreviation in_window new :=
  (Forall (fun t => clock w0 + Second <= t < deadline) new).
Local Abbreviation from_delay new :=
  (forall t, last new = Some t -> t = clock w0 + Second).

Lemma got_cons (t : Z) (new : list Z) :
  got (t :: new)
  = client domainID projectID (length (new ++ requests w0)) t :: got new.
Proof. reflexivity. Qed.

Lemma length_answers (reqs : list Z) :
  length (answers client domainID projectID reqs) = length reqs.
Proof. induction reqs; simpl; congruence. Qed.

Lemma length_got (new : list Z) : length (got new) = length new.
Proof.
  unfold newest_answers. rewrite length_take, length_answers, length_app. lia.
Qed.

Lemma nextWait_conf1 (wait : Z) :
  Second <= nextWait conf1 wait 0 <= 10 * Second.
Proof.
  unfold nextWait. cbn [PollInterval MinTimeout].
  change (0 =? 0) with true. change (0 <? 0) with false. cbv iota. cbn [andb].
  destruct (Z.ltb_spec (wait * 2) (1 * Second)); [unfold Second, Millisecond; lia|].
  destruct (Z.ltb_spec (10 * Second) (wait * 2)); unfold Second, Millisecond in *; lia.
Qed.

Lemma ends_poll_stalled (answers : list (ProjectReport + get_error)) (e : error) :
  Forall (fun a => is_pending (rr a)) answers ->
  e = contextErr \/ is_timeout timeout e ->
  ends_poll domainID projectID services timeout answers (Some e).
Proof.
  intros Hall He. destruct answers as [|a older]; simpl.
  - eauto.
  - apply Forall_cons in Hall as [(msg & -> & _) Hold].
    split; [done|]. exists e. split; [done|]. tauto.
Qed.

Lemma refreshLoop_trace (fuel : nat) :
  forall (wait nf : Z) (result : Result ProjectReport) (w : World) (new : list Z)
         res err w',
  requests w = (new ++ requests w0)%list ->
  nf = Z.of_nat (length new) ->
  nf <= 1000 ->
  spaced Second new ->
  in_window new ->
  from_delay new ->
  Forall (fun a => is_pending (rr a)) (got new) ->
  clock w0 + Second <= clock w < deadline ->
  match new with
  | [] => wait = 0 /\ clock w = clock w0 + Second
  | t :: _ => Second <= wait /\ clock w = t
  end ->
  refreshLoop fuel ctx conf1 deadline wait nf 0 result w = Some ((res, err), w') ->
  exists new',
    requests w' = (new' ++ requests w0)%list
    /\ spaced Second new'
    /\ in_window new'
    /\ from_delay new'
    /\ clock w0 <= clock w' <= deadline
    /\ ends_poll domainID projectID services timeout (got new') err.
Proof.
  induction fuel as [|fuel IH];
    intros wait nf result w new res err w' Hlog Hnf Hbudget Hsp Hwin Hfirst Hpend
           Hclock Hwait Hrun; [discriminate|].
  assert (Second = 1000000000) as HSecond by reflexivity.
  cbn [refreshLoop] in Hrun. unfold select_after in Hrun.
  destruct (cancelled_by ctx _) eqn:Hc.
  { injection Hrun as <- <- <-. exists new. cbn [requests clock].
    split_and!; try done.
    - lia.
    - unfold cancelled_by in Hc. destruct (done_at ctx) as [c|]; [|done].
      simpl. apply Z.leb_le in Hc. lia.
    - apply ends_poll_stalled; [done|by left]. }
  destruct (Z.leb_spec deadline (clock w + Z.max 0 wait)) as [Hdl|Hdl].
  { injection Hrun as <- <- <-. exists new. cbn [requests clock].
    split_and!; try done; try lia.
    apply ends_poll_stalled; [done|right]. by eexists _, _. }
  cbn [Refresh] in Hrun. rewrite GetQuota_unfold in Hrun. cbn [clock requests] in Hrun.
  set (t := clock w + Z.max 0 wait) in *.
  assert (clock w0 + Second <= t < deadline) as Ht by lia.
  assert (spaced Second (t :: new) /\ from_delay (t :: new)) as [Hsp' Hfirst'].
  { destruct new as [|t1 rest].
    - destruct Hwait as [-> Hw]. split; [done|].
      intros t' [= <-]. unfold t. lia.
    - destruct Hwait as [Hw1 Hw2]. split.
      + split; [unfold t; lia|done].
      + intros t' Hl. by apply Hfirst. }
  assert (in_window (t :: new)) as Hwin' by (by apply Forall_cons).
  rewrite Hlog in Hrun.
  destruct (refreshResult_cases domainID projectID services timeout
              (client domainID projectID (length (new ++ requests w0)) t))
    as [[(msg & Hr & Hmsg) _] | [(quota & _ & Hr) | (e & Hr)]];
    rewrite Hr in Hrun.
  - (* pending *)
    cbn [Target length Nat.eqb NotFoundChecks] in Hrun.
    assert (Forall (fun a => is_pending (rr a)) (got (t :: new))) as Hpend'.
    { rewrite got_cons. apply Forall_cons. split; [|done].
      exists msg. by rewrite Hr. }
    destruct (Z.ltb_spec 1000 (nf + 1)) as [Hfull|Hroom].
    + injection Hrun as <- <- <-. exists (t :: new). cbn [requests clock].
      split_and!; try done; try lia.
      change (got (t :: new))
        with (client domainID projectID (length (new ++ requests w0)) t :: got new).
      unfold ends_poll. rewrite Hr. split; [done|].
      exists (NotFoundError None (nf + 1)). split; [done|]. right; right.
      replace (nf + 1) with 1001 by lia. split; [done|].
      rewrite length_cons, length_got. lia.
    + eapply (IH _ _ _ _ (t :: new)); [| | | | | | | | |exact Hrun];
        cbn [requests clock length]; try done; try lia.
      split; [apply nextWait_conf1|done].
  - (* active *)
    cbn in Hrun. injection Hrun as <- <- <-. exists (t :: new). cbn [requests clock].
    split_and!; try done; try lia.
    change (got (t :: new))
      with (client domainID projectID (length (new ++ requests w0)) t :: got new).
    unfold ends_poll. rewrite Hr. done.
  - (* failed *)
    injection Hrun as <- <- <-. exists (t :: new). cbn [requests clock].
    split_and!; try done; try lia.
    change (got (t :: new))
      with (client domainID projectID (length (new ++ requests w0)) t :: got new).
    unfold ends_poll. rewrite Hr. done.
Qed.

Lemma WaitForProject_polls :
  0 < timeout ->
  limesCCloudProjectQuotaV1WaitForProject ctx client domainID projectID services timeout w0
  = match WaitForStateContext ctx
            (waitForAgent client domainID projectID services timeout) w0 with
    | Some ((_, err), w') => Some (err, w')
    | None => None
    end.
Proof.
  intros Ht. unfold limesCCloudProjectQuotaV1WaitForProject.
  replace (0 <? timeout) with true by (symmetry; lia).
  destruct (WaitForStateContext _ _ _) as [[[res err] w']|]; [|done].
  simpl. by destruct err.
Qed.

Lemma refresh_keeps_clock (w : World) : clock w <= clock (refresh w).2.
Proof. rewrite GetQuota_unfold. simpl. lia. Qed.

Lemma WaitForProject_trace :
  0 < timeout ->
  exists r w' new,
    limesCCloudProjectQuotaV1WaitForProject ctx client domainID projectID services
      timeout w0 = Some (r, w')
    /\ requests w' = (new ++ requests w0)%list
    /\ spaced Second new
    /\ in_window new
    /\ from_delay new
    /\ clock w0 <= clock w' <= deadline
    /\ ends_poll domainID projectID services timeout (got new) r.
Proof.
  intros Ht. rewrite (WaitForProject_polls Ht).
  assert (Second = 1000000000) as HSecond by reflexivity.
  destruct (WaitForStateContext_total ctx
              (waitForAgent client domainID projectID services timeout) w0
              refresh_keeps_clock) as [[[res err] w'] Hrun].
  rewrite Hrun. exists err, w'.
  unfold WaitForStateContext, waitForAgent in Hrun.
  cbn [Delay Pending Refresh Target Timeout MinTimeout PollInterval NotFoundChecks
       ContinuousTargetOccurence] in Hrun.
  change (1000 =? 0) with false in Hrun. change (0 =? 0) with true in Hrun.
  cbv iota in Hrun. unfold select_after at 1 in Hrun.
  destruct (cancelled_by ctx _) eqn:Hc.
  { injection Hrun as <- <- <-. exists []. cbn [requests clock].
    split_and!; try done; try lia.
    - unfold cancelled_by in Hc. destruct (done_at ctx) as [c|]; [|done].
      simpl. apply Z.leb_le in Hc. lia.
    - simpl. eauto. }
  destruct (Z.leb_spec deadline (clock w0 + Z.max 0 (1 * Second))) as [Hdl|Hdl].
  { injection Hrun as <- <- <-. exists []. cbn [requests clock].
    split_and!; try done; try lia.
    simpl. eexists. split; [done|]. right. by eexists _, _. }
  eapply (refreshLoop_trace _ _ _ _ _ []) in Hrun;
    [destruct Hrun as (new & Hrun); by exists new|..];
    cbn [requests clock length]; try done; try lia; by constructor.
Qed.

Lemma fresh_answers_app (w' : World) (new : list Z) :
  requests w' = (new ++ requests w0)%list ->
  fresh_answers client domainID projectID w0 w' = got new
  /\ fresh_requests w0 w' = new.
Proof.
  intros Hlog. unfold fresh_answers, fresh_requests. rewrite Hlog, length_app.
  replace (length new + length (requests w0) - length (requests w0))%nat
    with (length new) by lia.
  split; [done|]. by rewrite take_app_length.
Qed.

Lemma got_elem_of (new : list Z) (a : ProjectReport + get_error) :
  a ∈ got new -> exists n t, t ∈ new /\ a = client domainID projectID n t.
Proof.
  induction new as [|t new IH].
  - intros H. by apply elem_of_nil in H.
  - rewrite got_cons. intros [->|H]%elem_of_cons.
    + exists (length (new ++ requests w0)), t. split; [by left|done].
    + destruct (IH H) as (n & t' & Hin & ->). exists n, t'. split; [by right|done].
Qed.

End PollTrace.

(** ** The wait as a whole *)
Section WaitProperties.
Import StateChange Quota.

Implicit Types (ctx : Context) (client : ServiceClient) (services : QuotaRequest).
Implicit Types (w : World).

Lemma WaitForProject_single ctx client domainID projectID services timeout w :
  timeout <= 0 ->
  limesCCloudProjectQuotaV1WaitForProject ctx client domainID projectID services timeout w
  = Some ((refreshResult domainID projectID services timeout
             (client domainID projectID (length (requests w)) (clock w))).2,
          mkWorld (clock w) (clock w :: requests w)).
Proof.
  intros Ht. unfold limesCCloudProjectQuotaV1WaitForProject.
  replace (0 <? timeout) with false by (symmetry; lia).
  rewrite GetQuota_unfold.
  destruct (refreshResult_cases domainID projectID services timeout
              (client domainID projectID (length (requests w)) (clock w)))
    as [[_ ?] | [(quota & _ & ->) | (e & ->)]]; [lia|done|done].
Qed.

Lemma fresh_answers_single client domainID projectID w :
  fresh_answers client domainID projectID w (mkWorld (clock w) (clock w :: requests w))
  = [client domainID projectID (length (requests w)) (clock w)]
  /\ fresh_requests w (mkWorld (clock w) (clock w :: requests w)) = [clock w].
Proof.
  destruct (fresh_answers_app client domainID projectID w
              (mkWorld (clock w) (clock w :: requests w)) [clock w] eq_refl) as [-> ->].
  done.
Qed.

(** C8. With a zero timeout the wait performs exactly one retrieval and
    does not sleep, and when that retrieval succeeds it returns nil,
    whatever the resource lists of the requested services. *)
Theorem wait_without_timeout ctx client domainID projectID services w :
  (exists r,
      limesCCloudProjectQuotaV1WaitForProject ctx client domainID projectID services 0 w
      = Some (r, mkWorld (clock w) (clock w :: requests w)))
  /\ (forall quota,
        client domainID projectID (length (requests w)) (clock w) = inl quota ->
        limesCCloudProjectQuotaV1WaitForProject ctx client domainID projectID services 0 w
        = Some (None, mkWorld (clock w) (clock w :: requests w))).
Proof.
  rewrite (WaitForProject_single ctx client domainID projectID services 0 w) by lia.
  split; [by eexists|]. intros quota ->. simpl.
  destruct (rangeServices services 0 (map_to_list (Services quota))) as [msg|] eqn:H; [|done].
  apply rangeServices_Some in H as (_ & ? & _). lia.
Qed.

Lemma wait_without_timeout_witness :
  limesCCloudProjectQuotaV1WaitForProject (mkContext None)
    (fun _ _ _ _ => inl (mkProjectReport "uuid" "project" "domain"
                           {[ "compute" := mkProjectServiceReport "compute" ∅ ]}))
    "d" "p" {[ "compute" := {[ "cores" := (10, "") ]} ]} 0 (mkWorld 7 [])
  = Some (None, mkWorld 7 [7]).
Proof.
  apply (proj2 (wait_without_timeout (mkContext None)
                  (fun _ _ _ _ => inl (mkProjectReport "uuid" "project" "domain"
                                         {[ "compute" := mkProjectServiceReport "compute" ∅ ]}))
                  "d" "p" {[ "compute" := {[ "cores" := (10, "") ]} ]} (mkWorld 7 []))
               _ eq_refl).
Defined.

(** C4. An error of [Get] other than a 404 makes the refresh return a
    terminal failure (nil result, empty message, the error wrapped) for
    every timeout, and a wait during which [Get] answered with such an
    error returns that non-nil error. The wait always returns. *)
Theorem wait_fails_on_other_errors ctx client domainID projectID services timeout w :
  (forall text,
      client domainID projectID (length (requests w)) (clock w) = inr (ErrOther text) ->
      (limesCCloudProjectQuotaV1GetQuota client domainID projectID services timeout w).1
      = (None, "", Some (errorString (unable_to_retrieve domainID projectID (ErrOther text)))))
  /\ is_Some (limesCCloudProjectQuotaV1WaitForProject ctx client domainID projectID
                services timeout w)
  /\ (forall r w' text,
        limesCCloudProjectQuotaV1WaitForProject ctx client domainID projectID
          services timeout w = Some (r, w') ->
        inr (ErrOther text) ∈ fresh_answers client domainID projectID w w' ->
        r = Some (errorString (unable_to_retrieve domainID projectID (ErrOther text)))).
Proof.
  split; [|].
  { intros text Hget. rewrite GetQuota_unfold, Hget. done. }
  destruct (Z.le_gt_cases timeout 0) as [Hle|Hlt].
  - rewrite (WaitForProject_single ctx client domainID projectID services timeout w Hle).
    split; [by eexists|]. intros r w' text [= <- <-].
    destruct (fresh_answers_single client domainID projectID w) as [-> _].
    intros <-%list_elem_of_singleton. done.
  - destruct (WaitForProject_trace ctx client domainID projectID services timeout w Hlt)
      as (r0 & w0' & new & Hrun & Hlog & _ & _ & _ & _ & Hend).
    rewrite Hrun. split; [by eexists|]. intros r w' text [= <- <-].
    destruct (fresh_answers_app client domainID projectID w w0' new Hlog) as [-> _].
    unfold ends_poll in Hend.
    destruct (newest_answers _ _ _ _ _) as [|a older]; [by intros ?%elem_of_nil|].
    destruct Hend as [Hold Hend].
    intros [<-|Hin]%elem_of_cons.
    + exact Hend.
    + rewrite Forall_forall in Hold. destruct (Hold _ Hin) as (msg & Hmsg & _).
      discriminate Hmsg.
Qed.

Lemma wait_fails_on_other_errors_witness :
  exists w',
    limesCCloudProjectQuotaV1WaitForProject (mkContext None)
      (fun _ _ n _ => if (n <? 2)%nat then inr (ErrDefault404 "Resource not found")
                      else inr (ErrOther "Internal Server Error"))
      "d" "p" ∅ (5 * Second) (mkWorld 0 [])
    = Some (Some (errorString
                    "Unable to retrieve d/p ccloud_quota_project_v1: Internal Server Error"),
            w').
Proof.
  destruct (wait_fails_on_other_errors (mkContext None)
    (fun _ _ n _ => if (n <? 2)%nat then inr (ErrDefault404 "Resource not found")
                    else inr (ErrOther "Internal Server Error"))
    "d" "p" ∅ (5 * Second) (mkWorld 0 [])) as (_ & [[r w'] Hrun] & Hfail).
  exists w'. rewrite Hrun. do 2 f_equal.
  apply (Hfail r w' "Internal Server Error" Hrun).
  vm_compute in Hrun. injection Hrun as <- <-. vm_compute. left.
Defined.

Lemma Forall_in_window_before (start timeout : Z) (new : list Z) :
  Forall (fun t => start + Second <= t < start + timeout) new ->
  Forall (fun t => t < start + timeout) new.
Proof. intros H. eapply Forall_impl; [exact H|]. intros t. simpl. lia. Qed.

Lemma fresh_answers_elem_of client domainID projectID w w'
    (a : ProjectReport + get_error) :
  a ∈ fresh_answers client domainID projectID w w' ->
  exists n t, a = client domainID projectID n t.
Proof.
  unfold fresh_answers, newest_answers. intros Hin%subseteq_take.
  induction (requests w') as [|t reqs IH]; simpl in Hin.
  - by apply elem_of_nil in Hin.
  - apply elem_of_cons in Hin as [->|Hin]; [by eexists _, _|by apply IH].
Qed.

(** C6, as stated, fails: against a remote that keeps answering 404 and
    with a timeout of three hours, the refreshes are sent 1 s, 2 s, 4 s
    and 8 s after the start, so not on a fixed delay, and the wait ends
    with the not-found error of the SDK on the 1001st pending answer,
    9976 s after the start: no terminal state was reported and the
    timeout was not reached. *)
Lemma wait_polls_counterexample :
  let client : ServiceClient := fun _ _ _ _ => inr (ErrDefault404 "Resource not found") in
  let timeout := 10800 * Second in
  exists w',
    limesCCloudProjectQuotaV1WaitForProject (mkContext None) client "d" "p" ∅ timeout
      (mkWorld 0 []) = Some (Some (NotFoundError None 1001), w')
    /\ clock w' = 9976 * Second
    /\ clock w' < timeout
    /\ length (requests w') = 1001%nat
    /\ take 4 (rev (requests w')) = [1 * Second; 2 * Second; 4 * Second; 8 * Second]
    /\ Forall (fun a => is_pending (refreshResult "d" "p" ∅ timeout a))
         (fresh_answers client "d" "p" (mkWorld 0 []) w').
Proof.
  intros client timeout.
  destruct (limesCCloudProjectQuotaV1WaitForProject (mkContext None) client "d" "p" ∅
              timeout (mkWorld 0 [])) as [[r w']|] eqn:Hrun;
    vm_compute in Hrun; [|discriminate Hrun].
  injection Hrun as <- <-. eexists. split; [reflexivity|].
  split_and!; try (vm_compute; reflexivity).
  apply Forall_forall. intros a [n [t ->]]%fresh_answers_elem_of.
  eexists. split; [reflexivity|discriminate].
Qed.

(** C6, amended. With a positive timeout the wait hands the SDK a
    configuration with target state ["active"], an initial delay of 1 s,
    a minimum poll interval of 1 s, 1000 not-found checks and the given
    overall timeout, and returns the error of the SDK wait. The refresh
    function is first invoked 1 s after the start and then again at
    instants at least 1 s apart, all before the timeout, as long as the
    answers are pending; the poll ends at the first terminal answer, or
    after a pending one by the timeout, by the cancellation of the
    context or on the 1001st pending answer in a row. *)
Theorem wait_polls ctx client domainID projectID services timeout w :
  0 < timeout ->
  let conf := waitForAgent client domainID projectID services timeout in
  (Target conf = ["active"] /\ Delay conf = 1 * Second /\ MinTimeout conf = 1 * Second
   /\ NotFoundChecks conf = 1000 /\ Timeout conf = timeout
   /\ Refresh conf
      = limesCCloudProjectQuotaV1GetQuota client domainID projectID services timeout)
  /\ limesCCloudProjectQuotaV1WaitForProject ctx client domainID projectID services timeout w
     = match WaitForStateContext ctx conf w with
       | Some ((_, err), w') => Some (err, w')
       | None => None
       end
  /\ exists r w',
       limesCCloudProjectQuotaV1WaitForProject ctx client domainID projectID services
         timeout w = Some (r, w')
       /\ requests w' = (fresh_requests w w' ++ requests w)%list
       /\ (forall t, last (fresh_requests w w') = Some t -> t = clock w + 1 * Second)
       /\ spaced (1 * Second) (fresh_requests w w')
       /\ Forall (fun t => t < clock w + timeout) (fresh_requests w w')
       /\ ends_poll domainID projectID services timeout
            (fresh_answers client domainID projectID w w') r.
Proof.
  intros Ht conf. split; [done|].
  split; [by apply WaitForProject_polls|].
  destruct (WaitForProject_trace ctx client domainID projectID services timeout w Ht)
    as (r & w' & new & Hrun & Hlog & Hsp & Hwin & Hfirst & _ & Hend).
  destruct (fresh_answers_app client domainID projectID w w' new Hlog) as [Ha Hr].
  exists r, w'. rewrite Ha, Hr. split_and!; try done.
  by apply Forall_in_window_before.
Qed.

Lemma wait_polls_witness :
  exists r w',
    limesCCloudProjectQuotaV1WaitForProject (mkContext None)
      (fun _ _ n _ => if (n <? 2)%nat then inr (ErrDefault404 "Resource not found")
                      else inl (mkProjectReport "uuid" "project" "domain" ∅))
      "d" "p" ∅ (5 * Second) (mkWorld 0 []) = Some (r, w')
    /\ requests w' = (fresh_requests (mkWorld 0 []) w' ++ [])%list
    /\ (forall t, last (fresh_requests (mkWorld 0 []) w') = Some t -> t = 0 + 1 * Second)
    /\ spaced (1 * Second) (fresh_requests (mkWorld 0 []) w')
    /\ Forall (fun t => t < 0 + 5 * Second) (fresh_requests (mkWorld 0 []) w')
    /\ ends_poll "d" "p" ∅ (5 * Second)
         (fresh_answers
            (fun _ _ n _ => if (n <? 2)%nat then inr (ErrDefault404 "Resource not found")
                            else inl (mkProjectReport "uuid" "project" "domain" ∅))
            "d" "p" (mkWorld 0 []) w') r.
Proof.
  apply (proj2 (proj2 (wait_polls (mkContext None)
    (fun _ _ n _ => if (n <? 2)%nat then inr (ErrDefault404 "Resource not found")
                    else inl (mkProjectReport "uuid" "project" "domain" ∅))
    "d" "p" ∅ (5 * Second) (mkWorld 0 []) ltac:(reflexivity)))).
Defined.

(** C7. With a positive timeout, if every answer given before the timeout
    makes the refresh report the pending state, the wait returns, no
    later than the timeout and without a request at or after it, and
    what it returns is a non-nil error. *)
Theorem wait_times_out ctx client domainID projectID services timeout w :
  0 < timeout ->
  (forall n t, t < clock w + timeout ->
     is_pending (refreshResult domainID projectID services timeout
                   (client domainID projectID n t))) ->
  exists e w',
    limesCCloudProjectQuotaV1WaitForProject ctx client domainID projectID services
      timeout w = Some (Some e, w')
    /\ clock w' <= clock w + timeout
    /\ Forall (fun t => t < clock w + timeout) (fresh_requests w w').
Proof.
  intros Ht Hpending.
  destruct (WaitForProject_trace ctx client domainID projectID services timeout w Ht)
    as (r & w' & new & Hrun & Hlog & _ & Hwin & _ & Hclock & Hend).
  destruct (fresh_answers_app client domainID projectID w w' new Hlog) as [_ Hr].
  assert (exists e, r = Some e) as [e ->].
  { unfold ends_poll in Hend.
    destruct (newest_answers _ _ _ _ _) as [|a older] eqn:Hgot.
    - destruct Hend as (e & -> & _). by exists e.
    - assert (a ∈ newest_answers client domainID projectID (length new)
                    (new ++ requests w)) as Hin by (rewrite Hgot; by left).
      apply got_elem_of in Hin as (n & t & Hin & ->).
      rewrite Forall_forall in Hwin. specialize (Hwin t Hin).
      destruct (Hpending n t ltac:(lia)) as (msg & Hmsg & _).
      rewrite Hmsg in Hend. destruct Hend as (_ & e & -> & _). by exists e. }
  exists e, w'. rewrite Hr. split_and!; [done|lia|].
  by apply Forall_in_window_before.
Qed.

Lemma wait_times_out_witness :
  exists e w',
    limesCCloudProjectQuotaV1WaitForProject (mkContext None)
      (fun _ _ _ _ => inr (ErrDefault404 "Resource not found"))
      "d" "p" ∅ (5 * Second) (mkWorld 0 []) = Some (Some e, w')
    /\ clock w' <= 0 + 5 * Second
    /\ Forall (fun t => t < 0 + 5 * Second) (fresh_requests (mkWorld 0 []) w').
Proof.
  apply (wait_times_out (mkContext None)
           (fun _ _ _ _ => inr (ErrDefault404 "Resource not found"))
           "d" "p" ∅ (5 * Second) (mkWorld 0 []) ltac:(reflexivity)).
  intros n t _. eexists. split; [reflexivity|discriminate].
Defined.

End WaitProperties.

(** * Further properties of the helpers *)

(** ** Resource names *)
Section SanitizeProperties.
Import QuotaHelpers.

Lemma sanitize_In (c : ascii) (s : string) :
  In c (String.list_ascii_of_string (sanitize s))
  <-> In c (String.list_ascii_of_string s) /\ c <> "-"%char.
Proof.
  induction s as [|a s IH]; simpl; [tauto|].
  destruct (Ascii.eqb_spec a "-"%char) as [->|Hne]; simpl; rewrite IH.
  - split; [tauto|]. intros [[<-|H] Hc]; [done|tauto].
  - split; [|tauto]. intros [<-|[H Hc]]; [|tauto]. split; [by left|done].
Qed.

Lemma sanitize_id (s : string) :
  ~ In "-"%char (String.list_ascii_of_string s) -> sanitize s = s.
Proof.
  induction s as [|a s IH]; simpl; [done|]. intros H.
  destruct (Ascii.eqb_spec a "-"%char) as [->|Hne]; [tauto|].
  rewrite IH; [done|tauto].
Qed.

(** X1. [sanitize] keeps every byte other than the hyphen and no hyphen:
    its result is free of ["-"], and it returns its argument unchanged
    exactly when the argument has no hyphen. *)
Theorem sanitize_no_hyphen (s : string) :
  ~ In "-"%char (String.list_ascii_of_string (sanitize s))
  /\ (forall c, c <> "-"%char ->
        (In c (String.list_ascii_of_string (sanitize s)) <-> In c (String.list_ascii_of_string s)))
  /\ (sanitize s = s <-> ~ In "-"%char (String.list_ascii_of_string s)).
Proof.
  split; [|split].
  - rewrite sanitize_In. tauto.
  - intros c Hc. rewrite sanitize_In. tauto.
  - split; [|apply sanitize_id]. intros <-. rewrite sanitize_In. tauto.
Qed.

(** X2. [sanitize] distributes over concatenation, is idempotent and
    never lengthens a name; the length is kept exactly when there is no
    hyphen to delete. *)
Theorem sanitize_append (a b : string) :
  sanitize (a +:+ b) = sanitize a +:+ sanitize b
  /\ sanitize (sanitize a) = sanitize a
  /\ (String.length (sanitize a) <= String.length a)%nat
  /\ (String.length (sanitize a) = String.length a
      <-> ~ In "-"%char (String.list_ascii_of_string a)).
Proof.
  split; [|split; [|split]].
  - induction a as [|c a IH]; simpl; [done|].
    destruct (Ascii.eqb c "-"%char); simpl; by rewrite IH.
  - apply sanitize_id. rewrite sanitize_In. tauto.
  - induction a as [|c a IH]; simpl; [done|].
    destruct (Ascii.eqb c "-"%char); simpl; lia.
  - assert (forall s, (String.length (sanitize s) <= String.length s)%nat) as Hle.
    { induction s as [|c s IH]; simpl; [done|].
      destruct (Ascii.eqb c "-"%char); simpl; lia. }
    split; [|by intros ->%sanitize_id].
    induction a as [|c a IH]; simpl; [tauto|].
    destruct (Ascii.eqb_spec c "-"%char) as [->|Hne]; simpl.
    + intros H. pose proof (Hle a). lia.
    + intros [= H]. intros [?|?]; [done|]. by apply IH.
Qed.

End SanitizeProperties.

(** ** Cost objects *)
Section CostObjectProperties.
Import Billing.

Lemma expandCostObjectMap_cases (co : CostObject) (m : gmap string any) :
  Inherited co = false -> Name co = "" -> Type' co = "" ->
  match m !! "inherited" with
  | Some (Bool true) => expandCostObjectMap co m = Returns (mkCostObject true "" "")
  | Some (Bool false) | None =>
      match m !! "name" with
      | Some (String n) =>
          match m !! "type" with
          | Some (String t) => expandCostObjectMap co m = Returns (mkCostObject false n t)
          | None => expandCostObjectMap co m = Returns (mkCostObject false n "")
          | Some _ => expandCostObjectMap co m = Panics
          end
      | None =>
          match m !! "type" with
          | Some (String t) => expandCostObjectMap co m = Returns (mkCostObject false "" t)
          | None => expandCostObjectMap co m = Returns (mkCostObject false "" "")
          | Some _ => expandCostObjectMap co m = Panics
          end
      | Some _ => expandCostObjectMap co m = Panics
      end
  | Some _ => expandCostObjectMap co m = Panics
  end.
Proof.
  destruct co as [i n t]. simpl. intros -> -> ->. unfold expandCostObjectMap.
  destruct (m !! "inherited") as [[| [|] | | | | |]|]; simpl; try done;
    destruct (m !! "name") as [[]|]; simpl; try done;
    destruct (m !! "type") as [[]|]; simpl; done.
Qed.

(** X3. [billingProjectExpandCostObject] returns the zero cost object,
    without a panic, on every argument that holds no element of type
    [map[string]any]: nil, a value that is not a [[]any], an empty list,
    a list of other values. *)
Theorem expandCostObject_without_map (raw : any) :
  (forall l, raw = SliceAny l -> Forall (fun v => is_map v = false) l) ->
  billingProjectExpandCostObject raw = Returns (mkCostObject false "" "").
Proof.
  intros H. destruct raw as [| | | |l| |]; try reflexivity.
  specialize (H l eq_refl). unfold billingProjectExpandCostObject.
  rewrite <- (app_nil_r l). by rewrite expandCostObjectRange_skip.
Qed.

Lemma expandCostObject_without_map_witness :
  billingProjectExpandCostObject (SliceAny [String "name"; Bool true; Nil])
  = Returns (mkCostObject false "" "").
Proof.
  apply expandCostObject_without_map.
  intros l [= <-]. repeat constructor.
Defined.

(** X4. Only the first element of type [map[string]any] counts:
    elements before it that are no maps are skipped and everything after
    it is ignored. *)
Theorem expandCostObject_first_map (pre post : list any) (m : gmap string any) :
  Forall (fun v => is_map v = false) pre ->
  billingProjectExpandCostObject (SliceAny (pre ++ MapAny m :: post))
  = billingProjectExpandCostObject (SliceAny [MapAny m]).
Proof.
  intros H. unfold billingProjectExpandCostObject.
  by rewrite expandCostObjectRange_skip.
Qed.

Lemma expandCostObject_first_map_witness :
  billingProjectExpandCostObject
    (SliceAny [Nil; MapAny {[ "name" := String "first" ]};
               MapAny {[ "name" := String "second" ]}])
  = billingProjectExpandCostObject (SliceAny [MapAny {[ "name" := String "first" ]}]).
Proof.
  apply (expandCostObject_first_map [Nil] [MapAny {[ "name" := String "second" ]}]).
  repeat constructor.
Defined.

(** X5. The function panics exactly when the first map holds
    ["inherited"] with a value that is no bool, or, ["inherited"] not
    being true, holds ["name"] or ["type"] with a value that is no
    string. *)
Theorem expandCostObject_panics (pre post : list any) (m : gmap string any) :
  Forall (fun v => is_map v = false) pre ->
  billingProjectExpandCostObject (SliceAny (pre ++ MapAny m :: post)) = Panics
  <-> (exists x, m !! "inherited" = Some x /\ forall b, x <> Bool b)
      \/ (m !! "inherited" <> Some (Bool true)
          /\ exists key x, (key = "name" \/ key = "type")
               /\ m !! key = Some x /\ forall s, x <> String s).
Proof.
  intros Hpre. unfold billingProjectExpandCostObject.
  rewrite (expandCostObjectRange_skip _ _ _ Hpre). cbn [expandCostObjectRange].
  pose proof (expandCostObjectMap_cases (mkCostObject false "" "") m
                eq_refl eq_refl eq_refl) as Hc.
  destruct (m !! "inherited") as [[|[|]| | | | |]|] eqn:Hi;
    try (rewrite Hc; split; [intros _|done]; left; eexists;
         (split; [done|]); intros ?; discriminate);
    try (rewrite Hc; split; [discriminate|];
         intros [(x & [= <-] & Hx) | (Hne & _)]; [by destruct (Hx true)|done]).
  all: destruct (m !! "name") as [[]|] eqn:Hn;
    try (rewrite Hc; split; [intros _|done]; right; (split; [discriminate|]);
         exists "name"; eexists; (split; [by left|]); (split; [exact Hn|]);
         intros ?; discriminate).
  all: destruct (m !! "type") as [[]|] eqn:Ht;
    try (rewrite Hc; split; [intros _|done]; right; (split; [discriminate|]);
         exists "type"; eexists; (split; [by right|]); (split; [exact Ht|]);
         intros ?; discriminate).
  all: rewrite Hc; split; [discriminate|];
    intros [(x & Hx & Hb) | (_ & key & x & [-> | ->] & Hk & Hs)];
    exfalso;
    [try discriminate Hx; injection Hx as <-; by eapply Hb
    |rewrite Hn in Hk; try discriminate Hk; injection Hk as <-; by eapply Hs
    |rewrite Ht in Hk; try discriminate Hk; injection Hk as <-; by eapply Hs].
Qed.

Lemma expandCostObject_panics_witness :
  billingProjectExpandCostObject
    (SliceAny [MapAny {[ "inherited" := Bool false; "name" := Int 7 ]}]) = Panics.
Proof.
  apply (proj2 (expandCostObject_panics []
                  [] {[ "inherited" := Bool false; "name" := Int 7 ]}
                  ltac:(constructor))).
  right. split; [vm_compute; discriminate|].
  exists "name", (Int 7). split; [by left|]. split; [vm_compute; reflexivity|].
  intros s. discriminate.
Defined.

(** X6. A returned cost object that is inherited carries neither a name
    nor a type. *)
Theorem expandCostObject_inherited_clears (raw : any) (co : CostObject) :
  billingProjectExpandCostObject raw = Returns co ->
  Inherited co = true ->
  Name co = "" /\ Type' co = "".
Proof.
  unfold billingProjectExpandCostObject. destruct raw as [| | | |l| |];
    try (intros [= <-]; done).
  induction l as [|v l IH]; [intros [= <-]; done|].
  destruct v as [| | | | |m|]; try exact IH. cbn [expandCostObjectRange].
  pose proof (expandCostObjectMap_cases (mkCostObject false "" "") m
                eq_refl eq_refl eq_refl) as Hc.
  destruct (m !! "inherited") as [[|[|]| | | | |]|];
    try (rewrite Hc; intros [= <-]; done); try (rewrite Hc; discriminate);
    destruct (m !! "name") as [[]|];
    try (rewrite Hc; intros [= <-]; done); try (rewrite Hc; discriminate);
    destruct (m !! "type") as [[]|];
    try (rewrite Hc; intros [= <-]; done); rewrite Hc; discriminate.
Qed.

Lemma expandCostObject_inherited_clears_witness :
  Name (mkCostObject true "" "") = "" /\ Type' (mkCostObject true "" "") = "".
Proof.
  apply (expandCostObject_inherited_clears
           (SliceAny [MapAny {[ "inherited" := Bool true; "name" := String "n" ]}])).
  - vm_compute. reflexivity.
  - reflexivity.
Defined.

(** X7. Flatten followed by expand on the [[]any] of [map[string]any]
    form of the flattened list gives the object back with name and type
    cleared when it is inherited, so it is the identity exactly on objects
    that are not inherited or carry no name and type; expand applied to
    the [[]map[string]any] itself returns the zero object. *)
Theorem costObject_roundtrip (co : CostObject) :
  let back := billingProjectExpandCostObject
                (as_schema_list (billingProjectFlattenCostObject co)) in
  back = Returns (if Inherited co then mkCostObject true "" "" else co)
  /\ (back = Returns co <-> Inherited co = false \/ (Name co = "" /\ Type' co = ""))
  /\ billingProjectExpandCostObject (as_any (billingProjectFlattenCostObject co))
     = Returns (mkCostObject false "" "").
Proof.
  intros back.
  assert (back = Returns (if Inherited co then mkCostObject true "" "" else co)) as Hb.
  { unfold back, billingProjectFlattenCostObject, as_schema_list,
      billingProjectExpandCostObject.
    cbn [fmap list_fmap expandCostObjectRange].
    set (m := ({[ "inherited" := Bool (Inherited co); "name" := String (Name co);
                  "type" := String (Type' co) ]} : gmap string any)).
    pose proof (expandCostObjectMap_cases (mkCostObject false "" "") m
                  eq_refl eq_refl eq_refl) as Hc.
    assert (m !! "inherited" = Some (Bool (Inherited co))) as Hi by (vm_compute; reflexivity).
    assert (m !! "name" = Some (String (Name co))) as Hn by (vm_compute; reflexivity).
    assert (m !! "type" = Some (String (Type' co))) as Ht by (vm_compute; reflexivity).
    rewrite Hi in Hc. destruct co as [[|] n t]; cbn [Inherited Name Type'] in *.
    - exact Hc.
    - rewrite Hn, Ht in Hc. exact Hc. }
  split; [exact Hb|]. split; [|reflexivity].
  rewrite Hb. destruct co as [[|] n t]; simpl.
  - split.
    + intros [= <- <-]. by right.
    + intros [?|[-> ->]]; done.
  - split; [by left|done].
Qed.

End CostObjectProperties.

(** ** External certifications *)
Section ExtCertificationProperties.
Import Billing.

(** X8. [billingProjectExpandExtCertificationV1] returns nil exactly
    when its argument is not a [[]any] whose first element is a
    [map[string]any]; unlike the cost object it does not look past a
    first element of another type. *)
Theorem expandExtCertification_nil (raw : any) :
  billingProjectExpandExtCertificationV1 raw = None
  <-> forall m rest, raw <> SliceAny (MapAny m :: rest).
Proof.
  destruct raw as [| | | |l| |]; try (split; [intros _ ? ?; discriminate|done]).
  destruct l as [|v l]; [split; [intros _ ? ?; discriminate|done]|].
  destruct v as [| | | | |m|]; try (split; [intros _ ? ?; discriminate|done]).
  split; [discriminate|]. intros H. by destruct (H m l).
Qed.

(** X9. The result depends on nothing but the six keys ["c5"], ["iso"],
    ["pci"], ["soc1"], ["soc2"] and ["SOX"] of the first element: other
    keys, among them the ["sox"] that flatten writes, and later elements
    do not matter. *)
Theorem expandExtCertification_keys (m m' : gmap string any) (rest rest' : list any) :
  (forall key, key ∈ ["c5"; "iso"; "pci"; "soc1"; "soc2"; "SOX"] -> m !! key = m' !! key) ->
  billingProjectExpandExtCertificationV1 (SliceAny (MapAny m :: rest))
  = billingProjectExpandExtCertificationV1 (SliceAny (MapAny m' :: rest')).
Proof.
  intros H. unfold billingProjectExpandExtCertificationV1, bool_entry.
  rewrite !H; [done|..]; set_solver.
Qed.

Lemma expandExtCertification_keys_witness :
  billingProjectExpandExtCertificationV1
    (SliceAny [MapAny {[ "c5" := Bool true; "sox" := Bool true ]}; Nil])
  = billingProjectExpandExtCertificationV1
      (SliceAny [MapAny {[ "c5" := Bool true ]}]).
Proof.
  apply expandExtCertification_keys.
  intros key Hkey.
  repeat (apply elem_of_cons in Hkey as [->|Hkey]; [vm_compute; reflexivity|]).
  by apply elem_of_nil in Hkey.
Defined.

(** X10. A value that is no bool under one of the six keys is read as
    false, never as a panic: a field of the result is true exactly when
    its key holds the bool true. *)
Theorem expandExtCertification_fields (m : gmap string any) (rest : list any) :
  exists e,
    billingProjectExpandExtCertificationV1 (SliceAny (MapAny m :: rest)) = Some e
    /\ (C5 e = true <-> m !! "c5" = Some (Bool true))
    /\ (ISO e = true <-> m !! "iso" = Some (Bool true))
    /\ (PCI e = true <-> m !! "pci" = Some (Bool true))
    /\ (SOC1 e = true <-> m !! "soc1" = Some (Bool true))
    /\ (SOC2 e = true <-> m !! "soc2" = Some (Bool true))
    /\ (SOX e = true <-> m !! "SOX" = Some (Bool true)).
Proof.
  eexists. split; [reflexivity|]. cbn [C5 ISO PCI SOC1 SOC2 SOX]. unfold bool_entry.
  split_and!;
    match goal with
    | |- context [m !! ?k] => destruct (m !! k) as [[|[|]| | | | |]|]
    end; split; congruence.
Qed.

(** X11. Flatten loses nothing: nil gives the empty list, a value gives
    one map, and values with the same flattened form are equal. *)
Theorem flattenExtCertification_injective (e1 e2 : option ExtCertification) :
  length (billingProjectFlattenExtCertificationV1 e1)
  = match e1 with Some _ => 1%nat | None => 0%nat end
  /\ (billingProjectFlattenExtCertificationV1 e1
      = billingProjectFlattenExtCertificationV1 e2 -> e1 = e2).
Proof.
  split; [by destruct e1|].
  destruct e1 as [e1|], e2 as [e2|]; try done.
  destruct (flatten_lookups e1) as (m1 & -> & A1 & A2 & A3 & A4 & A5 & A6 & _).
  destruct (flatten_lookups e2) as (m2 & -> & B1 & B2 & B3 & B4 & B5 & B6 & _).
  intros [= <-]. destruct e1, e2. simpl in *. congruence.
Qed.

Lemma flattenExtCertification_injective_witness :
  Some (mkExtCertification true false false false false true)
  = Some (mkExtCertification true false false false false true).
Proof.
  apply (proj2 (flattenExtCertification_injective _ _)). reflexivity.
Defined.

End ExtCertificationProperties.

(** ** Bursting *)
Section BurstingProperties.
Import QuotaHelpers.
Context {float64 : Type} (zero : float64).

(** X12. [expandBurstingLimesCCloudProjectQuotaV1] returns nil exactly
    when its argument is not a [[]any] whose first element is a
    [map[string]any]; otherwise it reads ["enabled"] and ["multiplier"]
    of that element, taking false and zero for a missing key or a value of
    another type, and ignores the other elements. *)
Theorem expandBursting_first (raw : value float64) :
  (expandBurstingLimesCCloudProjectQuotaV1 zero raw = None
   <-> forall m rest, raw <> VSliceAny (VMapAny m :: rest))
  /\ (forall m rest,
        raw = VSliceAny (VMapAny m :: rest) ->
        exists b,
          expandBurstingLimesCCloudProjectQuotaV1 zero raw = Some b
          /\ (Enabled b = true <-> m !! "enabled" = Some (VBool true))
          /\ (forall f, m !! "multiplier" = Some (VFloat64 f) -> Multiplier b = f)
          /\ ((forall f, m !! "multiplier" <> Some (VFloat64 f)) -> Multiplier b = zero)).
Proof.
  split.
  - destruct raw as [| | | |l| |]; try (split; [intros _ ? ?; discriminate|done]).
    destruct l as [|v l]; [split; [intros _ ? ?; discriminate|done]|].
    destruct v as [| | | | |m|]; try (split; [intros _ ? ?; discriminate|done]).
    split; [discriminate|]. intros H. by destruct (H m l).
  - intros m rest ->. eexists. split; [reflexivity|]. cbn [Enabled Multiplier].
    split; [|split].
    + destruct (m !! "enabled") as [[|[|]| | | | |]|]; split; congruence.
    + by intros f ->.
    + intros H. destruct (m !! "multiplier") as [[| |f| | | |]|]; try done.
      by destruct (H f).
Qed.

(** X13. The multiplier survives flatten and expand only in the form the
    schema layer returns: on the [[]any] of maps with a [float64]
    multiplier expand gives the bursting info back, but on the list
    flatten returns it gives nil, and on a [[]any] of flatten's own maps,
    whose multiplier still is a [BurstingMultiplier], it gives the zero
    multiplier. *)
Theorem bursting_roundtrip (b : ProjectBurstingInfo float64) :
  expandBurstingLimesCCloudProjectQuotaV1 zero
    (VSliceAny [VMapAny {[ "enabled" := VBool (Enabled b);
                           "multiplier" := VFloat64 (Multiplier b) ]}]) = Some b
  /\ expandBurstingLimesCCloudProjectQuotaV1 zero
       (VSliceMapAny (flattenBurstingLimesCCloudProjectQuotaV1 (Some b))) = None
  /\ expandBurstingLimesCCloudProjectQuotaV1 zero
       (VSliceAny (VMapAny <$> flattenBurstingLimesCCloudProjectQuotaV1 (Some b)))
     = Some (mkProjectBurstingInfo (Enabled b) zero).
Proof.
  destruct b as [en mu]. cbn [Enabled Multiplier]. split; [|split].
  - unfold expandBurstingLimesCCloudProjectQuotaV1.
    replace (({[ "enabled" := VBool en; "multiplier" := VFloat64 mu ]}
                : gmap string (value float64)) !! "enabled")
      with (Some (VBool en : value float64)) by (vm_compute; reflexivity).
    replace (({[ "enabled" := VBool en; "multiplier" := VFloat64 mu ]}
                : gmap string (value float64)) !! "multiplier")
      with (Some (VFloat64 mu)) by (vm_compute; reflexivity).
    reflexivity.
  - reflexivity.
  - unfold flattenBurstingLimesCCloudProjectQuotaV1,
      expandBurstingLimesCCloudProjectQuotaV1.
    cbn [fmap list_fmap Enabled Multiplier].
    replace (({[ "enabled" := VBool en; "multiplier" := VBurstingMultiplier mu ]}
                : gmap string (value float64)) !! "enabled")
      with (Some (VBool en : value float64)) by (vm_compute; reflexivity).
    replace (({[ "enabled" := VBool en; "multiplier" := VBurstingMultiplier mu ]}
                : gmap string (value float64)) !! "multiplier")
      with (Some (VBurstingMultiplier mu)) by (vm_compute; reflexivity).
    reflexivity.
Qed.

End BurstingProperties.

(** ** More on the quota wait *)
Section MoreWaitProperties.
Import StateChange Quota.

Implicit Types (ctx : Context) (client : ServiceClient) (services : QuotaRequest).
Implicit Types (w : World).

(** X14. Go visits the entries of [quota.Services] in an unspecified
    order; in whatever order the range loop of the refresh function meets
    them, the refresh returns the same result. *)
Theorem refresh_order_independent domainID projectID services timeout quota
    (entries : list (string * ProjectServiceReport)) :
  entries ≡ₚ map_to_list (Services quota) ->
  match rangeServices services timeout entries with
  | Some msg => (None, msg, None)
  | None => (Some quota, "active", None)
  end = refreshResult domainID projectID services timeout (inl quota).
Proof.
  intros Hp. unfold refreshResult.
  by rewrite (rangeServices_Permutation services timeout _ _ Hp).
Qed.

Lemma refresh_order_independent_witness :
  let quota := mkProjectReport "uuid" "project" "domain"
                 {[ "dns" := mkProjectServiceReport "dns" ∅;
                    "compute" := mkProjectServiceReport "compute"
                                   {[ "cores" := mkProjectResourceReport "" (Some 1) 0 ]} ]} in
  match rangeServices {[ "dns" := ∅ ]} Second (reverse (map_to_list (Services quota))) with
  | Some msg => (None, msg, None)
  | None => (Some quota, "active", None)
  end
  = refreshResult "d" "p" {[ "dns" := ∅ ]} Second (inl quota).
Proof.
  intros quota. apply refresh_order_independent. apply reverse_Permutation.
Defined.

Lemma failed_refresh_error domainID projectID services timeout
    (a : ProjectReport + get_error) (state : string) (e : error) :
  refreshResult domainID projectID services timeout a = (None, state, Some e) ->
  state = ""
  /\ exists err, a = inr err /\ e = errorString (unable_to_retrieve domainID projectID err).
Proof.
  unfold refreshResult. destruct a as [quota|err].
  - destruct (rangeServices _ _ _); discriminate.
  - destruct err as [text|text]; [destruct (0 <? timeout)|];
      intros [= <- <-]; eauto.
Qed.

(** X15. With a positive timeout the wait returns nil only after a
    request, made no earlier than one second after the start, was
    answered with a report in which every requested service that is
    present has resources; all answers before that one were pending. *)
Theorem wait_success_sound ctx client domainID projectID services timeout w w' :
  0 < timeout ->
  limesCCloudProjectQuotaV1WaitForProject ctx client domainID projectID services
    timeout w = Some (None, w') ->
  exists quota older,
    fresh_answers client domainID projectID w w' = inl quota :: older
    /\ Forall (fun a => is_pending (refreshResult domainID projectID services timeout a))
         older
    /\ (forall k service, is_Some (services !! k) ->
          Services quota !! k = Some service -> Resources service <> ∅)
    /\ Forall (fun t => clock w + 1 * Second <= t < clock w + timeout)
         (fresh_requests w w').
Proof.
  intros Ht Hrun.
  destruct (WaitForProject_trace ctx client domainID projectID services timeout w Ht)
    as (r & w0' & new & Hrun' & Hlog & _ & Hwin & _ & _ & Hend).
  rewrite Hrun in Hrun'. injection Hrun' as <- <-.
  destruct (fresh_answers_app client domainID projectID w w' new Hlog) as [-> ->].
  unfold ends_poll in Hend.
  destruct (newest_answers _ _ _ _ _) as [|a older].
  { destruct Hend as (e & He & _). discriminate He. }
  destruct Hend as [Hold Hend].
  destruct (refreshResult_cases domainID projectID services timeout a)
    as [[(msg & Hr & _) _] | [(quota & -> & Hr) | (e & Hr)]].
  - rewrite Hr in Hend. destruct Hend as (e & He & _). discriminate He.
  - exists quota, older. split_and!; try done.
    destruct (refreshResult_report domainID projectID services timeout quota)
      as [[_ [?|Hall]] | [Hp _]]; [lia|done|].
    rewrite Hr in Hp. discriminate Hp.
  - rewrite Hr in Hend. discriminate Hend.
Qed.

Lemma wait_success_sound_witness :
  exists quota older,
    fresh_answers
      (fun _ _ n _ => if (n <? 2)%nat then inr (ErrDefault404 "Resource not found")
                      else inl (mkProjectReport "uuid" "project" "domain" ∅))
      "d" "p" (mkWorld 0 []) (mkWorld (4 * Second) [4 * Second; 2 * Second; 1 * Second])
    = inl quota :: older
    /\ Forall (fun a => is_pending (refreshResult "d" "p" ∅ (5 * Second) a)) older
    /\ (forall k service, is_Some ((∅ : QuotaRequest) !! k) ->
          Services quota !! k = Some service -> Resources service <> ∅)
    /\ Forall (fun t => 0 + 1 * Second <= t < 0 + 5 * Second)
         (fresh_requests (mkWorld 0 [])
            (mkWorld (4 * Second) [4 * Second; 2 * Second; 1 * Second])).
Proof.
  apply (wait_success_sound (mkContext None)
           (fun _ _ n _ => if (n <? 2)%nat then inr (ErrDefault404 "Resource not found")
                           else inl (mkProjectReport "uuid" "project" "domain" ∅))
           "d" "p" ∅ (5 * Second) (mkWorld 0 [])
           (mkWorld (4 * Second) [4 * Second; 2 * Second; 1 * Second])).
  - reflexivity.
  - vm_compute. reflexivity.
Defined.

(** X16. Every error the wait returns is the error of a failed refresh
    on an answer it received or, with a positive timeout, an error of the
    SDK wait (cancellation, timeout, not found); the message of a pending
    state is never returned as an error, so the [fmt.Errorf(msg)] return
    of the wait is never taken. *)
Theorem wait_error_kinds ctx client domainID projectID services timeout w e w' :
  limesCCloudProjectQuotaV1WaitForProject ctx client domainID projectID services
    timeout w = Some (Some e, w') ->
  ((exists err, inr err ∈ fresh_answers client domainID projectID w w'
        /\ refreshResult domainID projectID services timeout (inr err) = (None, "", Some e)
        /\ e = errorString (unable_to_retrieve domainID projectID err))
   \/ (0 < timeout
       /\ (e = contextErr \/ is_timeout timeout e \/ e = NotFoundError None 1001)))
  /\ e <> errorString empty_resources_msg.
Proof.
  intros Hrun.
  assert ((exists err, inr err ∈ fresh_answers client domainID projectID w w'
        /\ refreshResult domainID projectID services timeout (inr err) = (None, "", Some e)
        /\ e = errorString (unable_to_retrieve domainID projectID err))
   \/ (0 < timeout
       /\ (e = contextErr \/ is_timeout timeout e \/ e = NotFoundError None 1001)))
    as Hkind.
  { destruct (Z.le_gt_cases timeout 0) as [Hle|Hlt].
    - left.
      rewrite (WaitForProject_single ctx client domainID projectID services timeout w Hle)
        in Hrun.
      injection Hrun as Hr <-.
      destruct (fresh_answers_single client domainID projectID w) as [-> _].
      destruct (refreshResult _ _ _ _ (client _ _ _ _)) as [[res state] err] eqn:Hres.
      simpl in Hr. subst err.
      destruct (refreshResult_cases domainID projectID services timeout
                  (client domainID projectID (length (requests w)) (clock w)))
        as [[_ ?] | [(quota & _ & Hq) | (e' & He')]]; [lia| |].
      + rewrite Hres in Hq. discriminate Hq.
      + rewrite Hres in He'. injection He' as -> -> <-.
        destruct (failed_refresh_error _ _ _ _ _ _ _ Hres) as (_ & err & Ha & He).
        exists err. rewrite Ha in Hres. rewrite <- Ha. split_and!; try done.
        * by left.
        * by rewrite Ha.
    - destruct (WaitForProject_trace ctx client domainID projectID services timeout w Hlt)
        as (r & w0' & new & Hrun' & Hlog & _ & _ & _ & _ & Hend).
      rewrite Hrun in Hrun'. injection Hrun' as <- <-.
      destruct (fresh_answers_app client domainID projectID w w' new Hlog) as [-> _].
      unfold ends_poll in Hend.
      destruct (newest_answers _ _ _ _ _) as [|a older].
      { right. destruct Hend as (e' & [= <-] & He). split; [done|]. tauto. }
      destruct Hend as [_ Hend].
      destruct (refreshResult domainID projectID services timeout a)
        as [[[q|] state] [e'|]] eqn:Hres; try discriminate Hend.
      + injection Hend as <-. left.
        destruct (failed_refresh_error _ _ _ _ _ _ _ Hres) as (-> & err & -> & He).
        exists err. split_and!; try done. by left.
      + right. destruct Hend as (e' & [= <-] & He). split; [done|]. tauto. }
  split; [exact Hkind|].
  destruct Hkind as [(err & _ & _ & ->) | (_ & [-> | [(le & ls & ->) | ->]])];
    discriminate.
Qed.

Lemma wait_error_kinds_witness :
  errorString "Unable to retrieve d/p ccloud_quota_project_v1: Resource not found"
  <> errorString empty_resources_msg.
Proof.
  apply (wait_error_kinds (mkContext None)
           (fun _ _ _ _ => inr (ErrDefault404 "Resource not found"))
           "d" "p" ∅ 0 (mkWorld 0 []) _ (mkWorld 0 [0])).
  vm_compute. reflexivity.
Defined.

Lemma spaced_newest (gap lo : Z) (reqs : list Z) :
  0 <= gap ->
  spaced gap reqs ->
  Forall (fun t => lo <= t) reqs ->
  forall t older, reqs = t :: older -> lo + Z.of_nat (length older) * gap <= t.
Proof.
  intros Hgap. induction reqs as [|t1 reqs IH]; [done|].
  intros [Hhead Hsp] [Hlo Hall]%Forall_cons t older [= <- <-].
  destruct reqs as [|t0 rest]; [simpl; lia|].
  specialize (IH Hsp Hall t0 rest eq_refl). cbn [length] in *. lia.
Qed.

(** X17. With a positive timeout the wait only appends to the log of
    requests, never sets the clock back or past the timeout, and sends
    fewer requests than the timeout has seconds. *)
Theorem wait_request_rate ctx client domainID projectID services timeout w r w' :
  0 < timeout ->
  limesCCloudProjectQuotaV1WaitForProject ctx client domainID projectID services
    timeout w = Some (r, w') ->
  requests w' = (fresh_requests w w' ++ requests w)%list
  /\ clock w <= clock w' <= clock w + timeout
  /\ Z.of_nat (length (fresh_requests w w')) * Second <= timeout
  /\ (fresh_requests w w' <> [] ->
      Z.of_nat (length (fresh_requests w w')) * Second < timeout).
Proof.
  intros Ht Hrun.
  destruct (WaitForProject_trace ctx client domainID projectID services timeout w Ht)
    as (r0 & w0' & new & Hrun' & Hlog & Hsp & Hwin & _ & Hclock & _).
  rewrite Hrun in Hrun'. injection Hrun' as <- <-.
  destruct (fresh_answers_app client domainID projectID w w' new Hlog) as [_ ->].
  assert (Second = 1000000000) as HSecond by reflexivity.
  split; [done|]. split; [done|].
  assert (new <> [] -> Z.of_nat (length new) * Second < timeout) as Hlt.
  { destruct new as [|t older]; [done|]. intros _.
    pose proof (spaced_newest Second (clock w + Second) (t :: older) ltac:(lia) Hsp
                  ltac:(eapply Forall_impl; [exact Hwin|]; intros ?; simpl; lia)
                  t older eq_refl) as Hnew.
    apply Forall_cons in Hwin as [Hw _]. cbn [length]. lia. }
  split; [|exact Hlt].
  destruct new; [simpl; lia|]. apply Z.lt_le_incl, Hlt. done.
Qed.

Lemma wait_request_rate_witness :
  Z.of_nat (length (fresh_requests (mkWorld 0 [])
                      (mkWorld (5 * Second) [4 * Second; 2 * Second; 1 * Second])))
  * Second < 5 * Second.
Proof.
  apply (wait_request_rate (mkContext None)
           (fun _ _ _ _ => inr (ErrDefault404 "Resource not found"))
           "d" "p" ∅ (5 * Second) (mkWorld 0 [])
           (Some (TimeoutError None
                    "Unable to retrieve d/p ccloud_quota_project_v1: Resource not found"
                    (5 * Second) ["active"]))
           (mkWorld (5 * Second) [4 * Second; 2 * Second; 1 * Second])).
  - reflexivity.
  - vm_compute. reflexivity.
  - vm_compute. discriminate.
Defined.

(** X18. With a timeout that is zero or negative the wait sends one
    request, does not sleep and does not retry: it returns nil exactly
    when the report was retrieved, and the wrapped error of [Get]
    otherwise, a 404 included. *)
Theorem wait_nonpositive_timeout ctx client domainID projectID services timeout w :
  timeout <= 0 ->
  exists r,
    limesCCloudProjectQuotaV1WaitForProject ctx client domainID projectID services
      timeout w = Some (r, mkWorld (clock w) (clock w :: requests w))
    /\ (r = None <->
        exists quota, client domainID projectID (length (requests w)) (clock w) = inl quota)
    /\ (forall err,
          client domainID projectID (length (requests w)) (clock w) = inr err ->
          r = Some (errorString (unable_to_retrieve domainID projectID err))).
Proof.
  intros Ht.
  rewrite (WaitForProject_single ctx client domainID projectID services timeout w Ht).
  eexists. split; [reflexivity|].
  destruct (client domainID projectID (length (requests w)) (clock w)) as [quota|err].
  - assert (refreshResult domainID projectID services timeout (inl quota)
            = (Some quota, "active", None)) as ->.
    { destruct (refreshResult_report domainID projectID services timeout quota)
        as [[-> _] | (_ & ? & _)]; [done|lia]. }
    split; [|discriminate]. split; [by exists quota|done].
  - assert (refreshResult domainID projectID services timeout (inr err)
            = (None, "", Some (errorString (unable_to_retrieve domainID projectID err))))
      as ->.
    { unfold refreshResult. destruct err; [|done].
      by replace (0 <? timeout) with false by (symmetry; lia). }
    split; [|by intros ? [= <-]]. split; [discriminate|]. intros (quota & Hq). discriminate Hq.
Qed.

Lemma wait_nonpositive_timeout_witness :
  exists r,
    limesCCloudProjectQuotaV1WaitForProject (mkContext None)
      (fun _ _ _ _ => inr (ErrDefault404 "Resource not found"))
      "d" "p" ∅ (-1) (mkWorld 3 []) = Some (r, mkWorld 3 [3])
    /\ (r = None <->
        exists quota, @inr ProjectReport get_error (ErrDefault404 "Resource not found")
                      = inl quota)
    /\ (forall err,
          @inr ProjectReport get_error (ErrDefault404 "Resource not found") = inr err ->
          r = Some (errorString (unable_to_retrieve "d" "p" err))).
Proof.
  apply (wait_nonpositive_timeout (mkContext None)
           (fun _ _ _ _ => inr (ErrDefault404 "Resource not found"))
           "d" "p" ∅ (-1) (mkWorld 3 [])).
  lia.
Defined.

(** X19. A positive timeout shorter than the initial delay of one second
    cannot succeed: when the context is not cancelled, the wait ends at
    the timeout with the timeout error of the SDK and without having sent
    a request, whatever the remote would have answered. *)
Theorem wait_timeout_within_delay ctx client domainID projectID services timeout w :
  0 < timeout < 1 * Second ->
  done_at ctx = None ->
  limesCCloudProjectQuotaV1WaitForProject ctx client domainID projectID services
    timeout w
  = Some (Some (TimeoutError None "" timeout ["active"]),
          mkWorld (clock w + timeout) (requests w)).
Proof.
  intros [Ht Hshort] Hctx.
  rewrite (WaitForProject_polls ctx client domainID projectID services timeout w Ht).
  unfold WaitForStateContext, waitForAgent, select_after, cancelled_by.
  cbn [Delay Pending Refresh Target Timeout MinTimeout PollInterval NotFoundChecks
       ContinuousTargetOccurence].
  rewrite Hctx.
  assert (Second = 1000000000) as HSecond by reflexivity.
  replace (clock w + timeout <=? clock w + Z.max 0 (1 * Second)) with true
    by (symmetry; apply Z.leb_le; lia).
  by replace (Z.max (clock w) (clock w + timeout)) with (clock w + timeout) by lia.
Qed.

Lemma wait_timeout_within_delay_witness :
  limesCCloudProjectQuotaV1WaitForProject (mkContext None)
    (fun _ _ _ _ => inl (mkProjectReport "uuid" "project" "domain" ∅))
    "d" "p" ∅ (500 * Millisecond) (mkWorld 0 [])
  = Some (Some (TimeoutError None "" (500 * Millisecond) ["active"]),
          mkWorld (0 + 500 * Millisecond) []).
Proof.
  apply (wait_timeout_within_delay (mkContext None)
           (fun _ _ _ _ => inl (mkProjectReport "uuid" "project" "domain" ∅))
           "d" "p" ∅ (500 * Millisecond) (mkWorld 0 [])).
  - split; reflexivity.
  - reflexivity.
Defined.

Section Progress.
Context (client : ServiceClient) (domainID projectID : string).
Context (services : QuotaRequest) (timeout : Z) (w0 : World).
Context (k : nat) (quota : ProjectReport).

Local Abbreviation refresh :=
  (limesCCloudProjectQuotaV1GetQuota client domainID projectID services timeout).
Local Abbreviation conf1 :=
  (mkStateChangeConf (1 * Second) [] refresh ["active"] timeout (1 * Second) 0 1000 1).
Local Abbreviation rr := (refreshResult domainID projectID services timeout).

Hypothesis Hbudget : (k <= 1000)%nat.
Hypothesis Hpending :
  forall n t, (n < k)%nat ->
    is_pending (rr (client domainID projectID (length (requests w0) + n)%nat t)).
Hypothesis Hready :
  forall t, rr (client domainID projectID (length (requests w0) + k)%nat t)
            = (Some quota, "active", None).

Lemma refreshLoop_succeeds (j : nat) :
  forall (i fuel : nat) (wait : Z) (result : Result ProjectReport) (w : World),
  (i + j = k)%nat ->
  (j < fuel)%nat ->
  length (requests w) = (length (requests w0) + i)%nat ->
  0 <= wait <= 10 * Second ->
  clock w + wait + 10 * Second * Z.of_nat j < clock w0 + timeout ->
  exists w',
    refreshLoop fuel (mkContext None) conf1 (clock w0 + timeout) wait (Z.of_nat i) 0
      result w = Some ((Some quota, None), w')
    /\ length (requests w') = (length (requests w0) + S k)%nat.
Proof.
  assert (Second = 1000000000) as HSecond by reflexivity.
  induction j as [|j IH]; intros i fuel wait result w Hij Hfuel Hlen Hwait Hdl;
    (destruct fuel as [|fuel]; [lia|]);
    cbn [refreshLoop]; unfold select_after, cancelled_by; cbn [done_at];
    replace (clock w0 + timeout <=? clock w + Z.max 0 wait) with false
      by (symmetry; apply Z.leb_gt; lia);
    cbn [Refresh]; rewrite GetQuota_unfold; cbn [clock requests]; rewrite Hlen.
  - replace i with k by lia. rewrite Hready. cbn.
    eexists. split; [reflexivity|]. cbn [requests length]. lia.
  - destruct (Hpending i (clock w + Z.max 0 wait) ltac:(lia)) as (msg & -> & _).
    cbn [Target length Nat.eqb NotFoundChecks].
    replace (1000 <? Z.of_nat i + 1) with false by (symmetry; apply Z.ltb_ge; lia).
    replace (Z.of_nat i + 1) with (Z.of_nat (S i)) by lia.
    apply IH; cbn [requests clock length]; try lia.
    + pose proof (nextWait_conf1 client domainID projectID services timeout
                    (if wait =? 0 then 100 * Millisecond else wait)). lia.
    + pose proof (nextWait_conf1 client domainID projectID services timeout
                    (if wait =? 0 then 100 * Millisecond else wait)). lia.
Qed.

End Progress.

(** X20. Progress: if the context is never cancelled, the remote answers
    the first [k] requests (at most 1000) with a pending state and the
    next one with a report that counts as active, and the timeout exceeds
    one second plus ten seconds for every pending answer, the wait returns
    nil after exactly [k + 1] requests. *)
Theorem wait_succeeds client domainID projectID services timeout w (k : nat) quota :
  (k <= 1000)%nat ->
  (1 + 10 * Z.of_nat k) * Second < timeout ->
  (forall n t, (n < k)%nat ->
     is_pending (refreshResult domainID projectID services timeout
                   (client domainID projectID (length (requests w) + n)%nat t))) ->
  (forall t, refreshResult domainID projectID services timeout
               (client domainID projectID (length (requests w) + k)%nat t)
             = (Some quota, "active", None)) ->
  exists w',
    limesCCloudProjectQuotaV1WaitForProject (mkContext None) client domainID projectID
      services timeout w = Some (None, w')
    /\ length (fresh_requests w w') = S k.
Proof.
  intros Hk Htime Hpending Hready.
  assert (Second = 1000000000) as HSecond by reflexivity.
  assert (Millisecond = 1000000) as HMs by reflexivity.
  rewrite (WaitForProject_polls (mkContext None) client domainID projectID services
             timeout w ltac:(lia)).
  unfold WaitForStateContext, waitForAgent.
  cbn [Delay Pending Refresh Target Timeout MinTimeout PollInterval NotFoundChecks
       ContinuousTargetOccurence].
  change (1000 =? 0) with false. change (0 =? 0) with true. cbv iota.
  unfold select_after at 1, cancelled_by. cbn [done_at].
  replace (clock w + timeout <=? clock w + Z.max 0 (1 * Second)) with false
    by (symmetry; apply Z.leb_gt; lia).
  destruct (refreshLoop_succeeds client domainID projectID services timeout w k quota
              Hk Hpending Hready k 0%nat
              (rounds (mkStateChangeConf (1 * Second) []
                 (limesCCloudProjectQuotaV1GetQuota client domainID projectID services timeout)
                 ["active"] timeout (1 * Second) 0 1000 1))
              0 (mkResult None "" None false)
              (mkWorld (clock w + Z.max 0 (1 * Second)) (requests w)))
    as (w' & Hrun & Hlen); cbn [requests clock]; try lia.
  - unfold rounds, minWait. cbn [PollInterval Timeout]. change (0 <? 0) with false.
    cbn [andb].
    assert (Z.of_nat k <= timeout / (100 * Millisecond))
      by (apply Z.div_le_lower_bound; lia).
    lia.
  - change (Z.of_nat 0) with 0 in Hrun. rewrite Hrun. exists w'. split; [done|].
    unfold fresh_requests. rewrite Hlen.
    replace (length (requests w) + S k - length (requests w))%nat with (S k) by lia.
    rewrite length_take. lia.
Qed.

Lemma wait_succeeds_witness :
  exists w',
    limesCCloudProjectQuotaV1WaitForProject (mkContext None)
      (fun _ _ n _ => if (n <? 2)%nat then inr (ErrDefault404 "Resource not found")
                      else inl (mkProjectReport "uuid" "project" "domain" ∅))
      "d" "p" ∅ (30 * Second) (mkWorld 0 []) = Some (None, w')
    /\ length (fresh_requests (mkWorld 0 []) w') = 3%nat.
Proof.
  apply (wait_succeeds
           (fun _ _ n _ => if (n <? 2)%nat then inr (ErrDefault404 "Resource not found")
                           else inl (mkProjectReport "uuid" "project" "domain" ∅))
           "d" "p" ∅ (30 * Second) (mkWorld 0 []) 2
           (mkProjectReport "uuid" "project" "domain" ∅)).
  - lia.
  - reflexivity.
  - intros n t Hn. cbn [requests length Nat.add].
    replace (n <? 2)%nat with true by (symmetry; apply Nat.ltb_lt; lia).
    eexists. split; [reflexivity|discriminate].
  - intros t. reflexivity.
Defined.

End MoreWaitProperties.
